(** * pdf-renamer: a shallow embedding of [rename_pdfs.py]

    The script batch-renames the PDF files of a folder after the title of
    each document.  This file embeds its four functions

      - [sanitize_filename]       (title -> file-name component),
      - [extract_pdf_title]       (document -> optional title),
      - [find_available_filename] (collision probe),
      - [rename_pdfs_in_folder]   (the batch loop),

    and states the properties of the specification over them.

    Python strings are sequences of Unicode code points: a character is a
    [Z], a string a [list Z].  The folder is a finite map from file names to
    files, the set of existing names its domain. *)

From Stdlib Require Import ZArith List String Ascii Lia Bool DecimalN.
From stdpp Require Import gmap list.

Open Scope Z_scope.

(* ===================================================================== *)
(** * Part I: the program                                                 *)
(* ===================================================================== *)

(** ** Strings *)

Definition char := Z.
Definition str := list Z.

(** A string literal of the script, for literals that are pure ASCII. *)
Definition lit (s : string) : str :=
  map (fun a => Z.of_N (N_of_ascii a)) (list_ascii_of_string s).

(** [str.isspace] on one character, which is also what [\s] matches in a
    [str] pattern: CPython's [_PyUnicode_IsWhitespace]. *)
Definition isspace (c : Z) : bool :=
  ((0x09 <=? c) && (c <=? 0x0D)) || ((0x1C <=? c) && (c <=? 0x20))
  || (c =? 0x85) || (c =? 0xA0) || (c =? 0x1680)
  || ((0x2000 <=? c) && (c <=? 0x200A))
  || (c =? 0x2028) || (c =? 0x2029) || (c =? 0x202F) || (c =? 0x205F)
  || (c =? 0x3000).

(** Membership in a character class given by enumeration, and in the
    argument of [rstrip]. *)
Definition in_class (cls : list Z) (c : Z) : bool := existsb (Z.eqb c) cls.

(** [s.lstrip()] / [s.rstrip()] / [s.strip()], by the predicate that says
    which characters go. *)
Fixpoint lstrip_by (p : Z -> bool) (s : str) : str :=
  match s with
  | [] => []
  | c :: s' => if p c then lstrip_by p s' else s
  end.

Fixpoint rstrip_by (p : Z -> bool) (s : str) : str :=
  match s with
  | [] => []
  | c :: s' =>
      match rstrip_by p s' with
      | [] => if p c then [] else [c]
      | r => c :: r
      end
  end.

Definition strip (s : str) : str := rstrip_by isspace (lstrip_by isspace s).

(** [s.rstrip(chars)] *)
Definition rstrip_chars (chars : str) (s : str) : str :=
  rstrip_by (in_class chars) s.

(** [re.sub('[cls]', '', s)]: every character of the class is deleted. *)
Definition re_sub_class (p : Z -> bool) (s : str) : str :=
  List.filter (fun c => negb (p c)) s.

Definition starts_with (p : Z -> bool) (s : str) : bool :=
  match s with
  | [] => false
  | c :: _ => p c
  end.

(** [re.sub('[cls]+', rep, s)]: every maximal run of characters of the class
    is replaced by [rep]; the replacement is emitted at the last character of
    the run. *)
Fixpoint re_sub_runs (p : Z -> bool) (rep : str) (s : str) : str :=
  match s with
  | [] => []
  | c :: s' =>
      if p c then
        if starts_with p s' then re_sub_runs p rep s'
        else rep ++ re_sub_runs p rep s'
      else c :: re_sub_runs p rep s'
  end.

(** [s.split(sep)] for a one-character separator: never the empty list. *)
Fixpoint split (sep : Z) (s : str) : list str :=
  match s with
  | [] => [[]]
  | c :: s' =>
      if c =? sep then [] :: split sep s'
      else match split sep s' with
           | l :: ls => (c :: l) :: ls
           | [] => [[c]]
           end
  end.

(** Truthiness of a string: [if s:] *)
Definition truthy (s : str) : bool :=
  match s with [] => false | _ => true end.

(** [str(n)] for a non-negative integer: its decimal digits. *)
Fixpoint uint_digits (d : Decimal.uint) : str :=
  match d with
  | Decimal.Nil => []
  | Decimal.D0 d => 48 :: uint_digits d
  | Decimal.D1 d => 49 :: uint_digits d
  | Decimal.D2 d => 50 :: uint_digits d
  | Decimal.D3 d => 51 :: uint_digits d
  | Decimal.D4 d => 52 :: uint_digits d
  | Decimal.D5 d => 53 :: uint_digits d
  | Decimal.D6 d => 54 :: uint_digits d
  | Decimal.D7 d => 55 :: uint_digits d
  | Decimal.D8 d => 56 :: uint_digits d
  | Decimal.D9 d => 57 :: uint_digits d
  end.

Definition str_of_int (n : N) : str := uint_digits (N.to_uint n).

(** ** sanitize_filename *)

(** The character class of the first substitution, in the order of the
    source line: backslash, slash, asterisk, question mark, colon, double
    quote, less-than, greater-than, vertical bar, the two CJK double angle
    brackets, the two fullwidth parentheses, the two ASCII parentheses and
    the four typographic quotation marks. *)
Definition illegal_chars : list Z :=
  [ 0x5C; 0x2F; 0x2A; 0x3F; 0x3A; 0x22; 0x3C; 0x3E; 0x7C;
    0x300A; 0x300B;
    0xFF08; 0xFF09;
    0x28; 0x29;
    0x2018; 0x2019; 0x201C; 0x201D ].

Definition illegal (c : Z) : bool := in_class illegal_chars c.

(** The class [[\n\r]] of the third substitution. *)
Definition newline (c : Z) : bool := in_class [0x0A; 0x0D] c.

Definition max_len : nat := 150.

Definition untitled : str := lit "untitled".

(** The first statement of the body: the illegal-character removal. *)
Definition remove_illegal (title : str) : str :=
  strip (re_sub_class illegal title).

(** The body up to the last [rstrip], that is the value of [clean_title]
    when the final emptiness test is reached. *)
Definition sanitize_steps (title : str) : str :=
  let clean_title := remove_illegal title in
  let clean_title := re_sub_runs isspace [0x20] clean_title in
  let clean_title := re_sub_runs newline [0x20] clean_title in
  let clean_title :=
    if Nat.ltb max_len (length clean_title)
    then strip (take max_len clean_title)
    else clean_title in
  rstrip_chars [0x2E; 0x20] clean_title.

Definition sanitize_filename (title : str) : str :=
  let clean_title := sanitize_steps title in
  if negb (truthy clean_title) then untitled else clean_title.

(** ** Effects: traces, exceptions, logging *)

(** The exception classes the script tells apart.  All of them derive from
    [Exception]; [FileNotFoundError] derives from [OSError].  Interrupts of
    the process ([KeyboardInterrupt], [SystemExit]) are outside the model. *)
Inductive exn := FileNotFoundError | OSError | PdfReadError | OtherException.

Definition is_OSError (e : exn) : bool :=
  match e with
  | FileNotFoundError | OSError => true
  | PdfReadError | OtherException => false
  end.

Inductive level := DEBUG | INFO | WARNING | ERROR.

(** One constructor per [logging] call of the script, with the values its
    message interpolates. *)
Inductive message :=
  | Msg_title_from_metadata (title name : str)
  | Msg_title_from_first_page (line name : str)
  | Msg_title_from_first_line (line name : str)
  | Msg_text_extract_error (name : str) (e : exn)
  | Msg_file_not_found (name : str)
  | Msg_pdf_read_error (name : str) (e : exn)
  | Msg_unknown_error (name : str) (e : exn)
  | Msg_no_title (name : str)
  | Msg_not_a_directory
  | Msg_processing (name : str)
  | Msg_already_untitled (name : str)
  | Msg_empty_title (name : str)
  | Msg_no_change (name : str)
  | Msg_renamed (name new_name : str)
  | Msg_rename_failed (name : str) (e : exn)
  | Msg_rename_unknown_error (name : str) (e : exn)
  | Msg_summary (rename_count fail_count : N).

(** What a run does to the outside world, in order: calls of the PDF
    collaborator and of the file system, and log records. *)
Inductive event :=
  | Call_open (name : str)
  | Call_close (name : str)
  | Call_PdfReader
  | Get_metadata
  | Get_pages
  | Call_extract_text
  | Call_rename (name new_name : str)
  | Log (lv : level) (msg : message).

(** A computation: the trace it leaves and either the exception it raises
    or the value it returns. *)
Definition M (A : Type) : Type := list event * (exn + A).

Definition ret {A : Type} (a : A) : M A := ([], inr a).

Definition bind {A B : Type} (m : M A) (k : A -> M B) : M B :=
  match m with
  | (t, inl e) => (t, inl e)
  | (t, inr a) => let '(t', r) := k a in (t ++ t', r)
  end.

Notation "x <- m ;; k" := (bind m (fun x => k))
  (at level 90, m at next level, right associativity).
Notation "m ;;; k" := (bind m (fun _ => k))
  (at level 90, right associativity).

(** A call of a collaborator that returns or raises. *)
Definition call {A : Type} (ev : event) (r : exn + A) : M A := ([ev], r).

Definition log (lv : level) (msg : message) : M unit := ([Log lv msg], inr tt).

(** [try: m  except Exception as e: h e] *)
Definition try_except {A : Type} (m : M A) (h : exn -> M A) : M A :=
  match m with
  | (t, inl e) => let '(t', r) := h e in (t ++ t', r)
  | (t, inr a) => (t, inr a)
  end.

Definition trace {A : Type} (m : M A) : list event := fst m.
Definition outcome {A : Type} (m : M A) : exn + A := snd m.

(** ** The PDF collaborator and the folder *)

(** [PyPDF2]'s [DocumentInformation] is a dictionary of text entries; its
    [title] property reads the entry [/Title]. *)
Abbreviation DocumentInformation := (gmap str str).

Definition title (meta : DocumentInformation) : option str :=
  meta !! lit "/Title".

Record PageObject := { extract_text : exn + str }.

Record PdfReader := {
  metadata : exn + option DocumentInformation;
  pages : exn + list PageObject
}.

(** A file of the folder: how opening it, parsing it and renaming it
    behave. *)
Record File := {
  open_error : option exn;
  reader : exn + PdfReader;
  rename_error : option exn
}.

Abbreviation Folder := (gmap str File).

(** [pdf_path.open('rb')] *)
Definition open_rb (fs : Folder) (pdf_path : str) : exn + File :=
  match fs !! pdf_path with
  | None => inl FileNotFoundError
  | Some f => match open_error f with
              | Some e => inl e
              | None => inr f
              end
  end.

(** [with pdf_path.open('rb') as f: body]: the file is closed on every way
    out of the body. *)
Definition with_open {A : Type} (fs : Folder) (pdf_path : str)
    (body : File -> M A) : M A :=
  f <- call (Call_open pdf_path) (open_rb fs pdf_path) ;;
  let '(t, r) := body f in (t ++ [Call_close pdf_path], r).

(** ** extract_pdf_title *)

(** The part of [str.isdigit] that varies with the Unicode version of the
    interpreter: which characters beyond ASCII are digits. *)
Class Unicode := { non_ascii_digit : Z -> bool }.

(** The table with no further digits, for running the model. *)
Definition ascii_digits_only : Unicode := {| non_ascii_digit := fun _ => false |}.

Section Extract.
Context `{Unicode}.

Definition isdigit_char (c : Z) : bool :=
  if c <? 128 then (48 <=? c) && (c <=? 57) else non_ascii_digit c.

(** [s.isdigit()] *)
Definition isdigit (s : str) : bool := truthy s && forallb isdigit_char s.

(** [[line.strip() for line in text.split('\n') if line.strip()]] *)
Definition text_lines (text : str) : list str :=
  map strip (List.filter (fun line => truthy (strip line)) (split 0x0A text)).

(** The test of the [for] loop over the lines. *)
Definition title_like (line : str) : bool :=
  Nat.ltb 5 (length line) && Nat.ltb (length line) 100 && negb (isdigit line).

(** Step 1, the metadata.  [Some title]: the function returns [title];
    [None]: control falls through to step 2. *)
Definition title_from_metadata (pdf_path : str)
    (meta : option DocumentInformation) : M (option str) :=
  match meta with
  | Some meta =>
      match title meta with
      | Some t =>
          if bool_decide (meta <> ∅) && truthy t then
            let title := strip t in
            if truthy title then
              log DEBUG (Msg_title_from_metadata title pdf_path) ;;;
              ret (Some title)
            else ret None
          else ret None
      | None => ret None
      end
  | None => ret None
  end.

(** Step 2, the text of the first page, inside its own [try]. *)
Definition title_from_first_page (pdf_path : str)
    (first_page : PageObject) : M (option str) :=
  try_except
    (text <- call Call_extract_text (extract_text first_page) ;;
     if truthy text then
       let lines := text_lines text in
       match List.find title_like lines with
       | Some line =>
           log DEBUG (Msg_title_from_first_page line pdf_path) ;;;
           ret (Some line)
       | None =>
           match lines with
           | line0 :: _ =>
               log DEBUG (Msg_title_from_first_line line0 pdf_path) ;;;
               ret (Some line0)
           | [] => ret None
           end
       end
     else ret None)
    (fun text_extract_error =>
       log WARNING (Msg_text_extract_error pdf_path text_extract_error) ;;;
       ret None).

(** The body of the outer [try]. *)
Definition extract_body (fs : Folder) (pdf_path : str) : M (option str) :=
  with_open fs pdf_path (fun f =>
    reader <- call Call_PdfReader (reader f) ;;
    meta <- call Get_metadata (metadata reader) ;;
    r <- title_from_metadata pdf_path meta ;;
    match r with
    | Some title => ret (Some title)
    | None =>
        pages <- call Get_pages (pages reader) ;;
        match pages with
        | first_page :: _ => title_from_first_page pdf_path first_page
        | [] => ret None
        end
    end).

Definition extract_pdf_title (fs : Folder) (pdf_path : str) : M (option str) :=
  r <- try_except (extract_body fs pdf_path)
         (fun e =>
            match e with
            | FileNotFoundError => log ERROR (Msg_file_not_found pdf_path)
            | PdfReadError => log ERROR (Msg_pdf_read_error pdf_path e)
            | _ => log ERROR (Msg_unknown_error pdf_path e)
            end ;;; ret None) ;;
  match r with
  | Some title => ret (Some title)
  | None => log WARNING (Msg_no_title pdf_path) ;;; ret None
  end.

End Extract.

(** ** find_available_filename *)

(** The folder is seen through the set of names that exist in it:
    [(target_dir / new_filename).exists()] is membership of [new_filename]
    in that set, and the path returned is given by its file name. *)

(** The [while] loop, with [fuel] bounding the number of times its body may
    run; [None] when the bound is hit before the loop exits. *)
Fixpoint probe (fuel : nat) (target_dir : gset str) (base_name extension : str)
    (counter : N) (new_filename : str) : option str :=
  if bool_decide (new_filename ∈ target_dir) then
    match fuel with
    | O => None
    | S fuel' =>
        probe fuel' target_dir base_name extension (counter + 1)%N
              (base_name ++ [0x5F] ++ str_of_int counter ++ extension)
    end
  else Some new_filename.

Definition find_available_filename_fuel (fuel : nat) (target_dir : gset str)
    (base_name extension : str) : option str :=
  probe fuel target_dir base_name extension 1%N (base_name ++ extension).

(** The loop body never needs to run more often than the folder has
    names, which Part II proves; this is the run with that bound. *)
Definition find_available_filename (target_dir : gset str)
    (base_name extension : str) : option str :=
  find_available_filename_fuel (size target_dir) target_dir base_name extension.

(** ** rename_pdfs_in_folder *)

(** [s.rfind(c)] *)
Fixpoint rfind (c : Z) (s : str) : option nat :=
  match s with
  | [] => None
  | d :: s' =>
      match rfind c s' with
      | Some i => Some (S i)
      | None => if d =? c then Some O else None
      end
  end.

(** [pathlib]'s [suffix] and [stem] of a file name: the name is cut at its
    last dot unless that dot is the first or the last character. *)
Definition suffix (name : str) : str :=
  match rfind 0x2E name with
  | Some i =>
      if Nat.ltb 0 i && Nat.ltb i (length name - 1) then drop i name else []
  | None => []
  end.

Definition stem (name : str) : str :=
  match rfind 0x2E name with
  | Some i =>
      if Nat.ltb 0 i && Nat.ltb i (length name - 1) then take i name else name
  | None => name
  end.

(** [pdf_path.rename(new_path)] inside the folder. *)
Definition rename (fs : Folder) (name new_name : str) : exn + Folder :=
  match fs !! name with
  | None => inl FileNotFoundError
  | Some f =>
      match rename_error f with
      | Some e => inl e
      | None => inr (<[new_name := f]> (delete name fs))
      end
  end.

(** The names that [folder_path.glob('*.pdf')] yields, from the listing of
    the folder in the order of the operating system. *)
Definition glob_pdf (listing : list str) : list str :=
  List.filter (fun name => bool_decide (lit ".pdf" `suffix_of` name)) listing.

(** The variables the loop updates. *)
Record state := {
  folder : Folder;
  rename_count : N;
  fail_count : N
}.

Section Batch.
Context `{Unicode}.

(** [rename_count += 1] (with the folder as renamed) and [fail_count += 1]. *)
Definition count_rename (st : state) (fs' : Folder) : state :=
  {| folder := fs';
     rename_count := rename_count st + 1;
     fail_count := fail_count st |}.

Definition count_failure (st : state) : state :=
  {| folder := folder st;
     rename_count := rename_count st;
     fail_count := fail_count st + 1 |}.

(** The branch [if title:] of the loop body; leaving it with the state
    unchanged is [continue]. *)
Definition rename_to_title (st : state) (pdf_path title : str) : M state :=
  let clean_title := sanitize_filename title in
  if bool_decide (clean_title = untitled)
     && bool_decide (stem pdf_path = untitled) then
    log WARNING (Msg_already_untitled pdf_path) ;;;
    ret st
  else if negb (truthy clean_title) then
    log WARNING (Msg_empty_title pdf_path) ;;;
    ret st
  else if bool_decide (clean_title = stem pdf_path) then
    log INFO (Msg_no_change pdf_path) ;;;
    ret st
  else
    match find_available_filename (dom (folder st)) clean_title
            (suffix pdf_path) with
    | Some new_path =>
        try_except
          (fs' <- call (Call_rename pdf_path new_path)
                    (rename (folder st) pdf_path new_path) ;;
           log INFO (Msg_renamed pdf_path new_path) ;;;
           ret (count_rename st fs'))
          (fun e =>
             (if is_OSError e
              then log ERROR (Msg_rename_failed pdf_path e)
              else log ERROR (Msg_rename_unknown_error pdf_path e)) ;;;
             ret (count_failure st))
    | None => ret st
    end.

(** One iteration of the [for] loop. *)
Definition process (st : state) (pdf_path : str) : M state :=
  log INFO (Msg_processing pdf_path) ;;;
  title <- extract_pdf_title (folder st) pdf_path ;;
  match title with
  | Some title =>
      if truthy title then rename_to_title st pdf_path title
      else ret (count_failure st)
  | None => ret (count_failure st)
  end.

Fixpoint for_each (pdf_files : list str) (st : state) : M state :=
  match pdf_files with
  | [] => ret st
  | pdf_path :: rest => st' <- process st pdf_path ;; for_each rest st'
  end.

(** [dir] is [None] when [folder_path] is not a directory. *)
Definition rename_pdfs_in_folder (dir : option Folder) (listing : list str)
    : M (option state) :=
  match dir with
  | None => log ERROR Msg_not_a_directory ;;; ret None
  | Some fs =>
      let pdf_files := glob_pdf listing in
      st <- for_each pdf_files
              {| folder := fs; rename_count := 0; fail_count := 0 |} ;;
      log INFO (Msg_summary (rename_count st) (fail_count st)) ;;;
      ret (Some st)
  end.

End Batch.

(** ** Vocabulary of the properties *)

(** The last character of [s] satisfies [p]. *)
Definition ends_with (p : Z -> bool) (s : str) : bool :=
  match last s with
  | Some c => p c
  | None => false
  end.

(** Whitespace occurs in [s] only as single U+0020 characters, never two in
    a row. *)
Fixpoint single_spaced (s : str) : bool :=
  match s with
  | [] => true
  | c :: s' =>
      (if isspace c then (c =? 0x20) && negb (starts_with isspace s') else true)
      && single_spaced s'
  end.

(** No character of the class of the first substitution occurs in [s]. *)
Definition legal (s : str) : Prop := Forall (fun c => illegal c = false) s.

(** The shape of a finished file-name component. *)
Definition clean (r : str) : Prop :=
  legal r /\ single_spaced r = true /\ starts_with isspace r = false /\
  ends_with (in_class [0x2E; 0x20]) r = false /\
  (length r <= max_len)%nat /\ r <> [].

(** The set of removed characters as the specification lists it: the class
    of the source without the two fullwidth parentheses. *)
Definition spec_banned : list Z :=
  [ 0x5C; 0x2F; 0x2A; 0x3F; 0x3A; 0x22; 0x3C; 0x3E; 0x7C; 0x28; 0x29;
    0x2018; 0x2019; 0x201C; 0x201D; 0x300A; 0x300B ].

(** The characters the removal step has to keep, for a removed set [cls]:
    those that are neither whitespace nor in [cls]. *)
Definition kept (cls : list Z) (c : Z) : bool :=
  negb (isspace c) && negb (in_class cls c).

(** [sanitize_filename] removes exactly the set [cls]: no character of
    [cls] is left in its result, and the removal step keeps, in order, every
    character that is neither in [cls] nor whitespace. *)
Definition removes_exactly (cls : list Z) : Prop :=
  forall x : str,
    Forall (fun c => in_class cls c = false) (sanitize_filename x) /\
    List.filter (kept cls) (remove_illegal x) = List.filter (kept cls) x.

(** The sequence of names the collision probe goes through:
    [base_name + extension], then [base_name_1 + extension],
    [base_name_2 + extension], and so on. *)
Definition candidate (base_name extension : str) (k : N) : str :=
  match k with
  | 0%N => base_name ++ extension
  | _ => base_name ++ [0x5F] ++ str_of_int k ++ extension
  end.

(** [name] is the first name of that sequence that does not exist in
    [target_dir]. *)
Definition first_free (target_dir : gset str) (base_name extension : str)
    (name : str) : Prop :=
  exists k : N,
    name = candidate base_name extension k /\ (name ∉ target_dir) /\
    forall j : N, (j < k)%N -> candidate base_name extension j ∈ target_dir.

(** The file at [pdf_path] opens and parses: [rd] is its reader. *)
Definition readable (fs : Folder) (pdf_path : str) (rd : PdfReader) : Prop :=
  exists f, fs !! pdf_path = Some f /\ open_error f = None /\ reader f = inr rd.

(** The metadata of [rd] has the title field [t]. *)
Definition metadata_title (rd : PdfReader) (t : str) : Prop :=
  exists meta, metadata rd = inr (Some meta) /\ title meta = Some t.

(** The metadata of [rd] can be read and has no usable title: no title
    field, or one that is empty after trimming. *)
Definition no_usable_metadata_title (rd : PdfReader) : Prop :=
  exists meta, metadata rd = inr meta /\
    forall m t, meta = Some m -> title m = Some t -> strip t = [].

(** The lines of a page text as the specification describes them: split at
    line feeds, trim every line, discard the lines that are empty then. *)
Definition nonblank_lines (text : str) : list str :=
  List.filter truthy (map strip (split 0x0A text)).

(** The rule for a title line: more than 5 and fewer than 100 characters,
    and not all digits. *)
Definition plausible_title `{Unicode} (line : str) : Prop :=
  (5 < length line < 100)%nat /\ isdigit line = false.

(** The ways in which a file gives no title: it cannot be opened, it cannot
    be parsed (by the reader, or later when its metadata or its pages are
    read), the text extraction of its first page fails, or it has neither a
    usable metadata title nor any text. *)
Inductive unreadable (fs : Folder) (pdf_path : str) : Prop :=
  | cannot_open e :
      open_rb fs pdf_path = inl e -> unreadable fs pdf_path
  | cannot_parse f e :
      open_rb fs pdf_path = inr f -> reader f = inl e ->
      unreadable fs pdf_path
  | cannot_read_metadata rd e :
      readable fs pdf_path rd -> metadata rd = inl e ->
      unreadable fs pdf_path
  | cannot_read_pages rd e :
      readable fs pdf_path rd -> no_usable_metadata_title rd ->
      pages rd = inl e -> unreadable fs pdf_path
  | text_extraction_fails rd first_page rest e :
      readable fs pdf_path rd -> no_usable_metadata_title rd ->
      pages rd = inr (first_page :: rest) ->
      extract_text first_page = inl e -> unreadable fs pdf_path
  | no_pages rd :
      readable fs pdf_path rd -> no_usable_metadata_title rd ->
      pages rd = inr [] -> unreadable fs pdf_path
  | no_text rd first_page rest text :
      readable fs pdf_path rd -> no_usable_metadata_title rd ->
      pages rd = inr (first_page :: rest) ->
      extract_text first_page = inr text ->
      Forall (fun line => strip line = []) (split 0x0A text) ->
      unreadable fs pdf_path.

(** A file that opens and parses, with the given metadata title (if any)
    and one page per given text or extraction failure; for running the
    model on concrete folders. *)
Definition sample_file (meta_title : option str)
    (page_texts : list (exn + str)) : File :=
  {| open_error := None;
     reader :=
       inr {| metadata :=
                inr (match meta_title with
                     | Some t => Some {[ lit "/Title" := t ]}
                     | None => None
                     end);
              pages := inr (map (fun x => {| extract_text := x |})
                                page_texts) |};
     rename_error := None |}.


(** Kinds of events: log records, and uses of an opened reader. *)
Definition is_log (ev : event) : bool :=
  match ev with
  | Log _ _ => true
  | _ => false
  end.

Definition uses_reader (ev : event) : bool :=
  match ev with
  | Call_PdfReader | Get_metadata | Get_pages | Call_extract_text => true
  | _ => false
  end.

(** The log messages of [extract_pdf_title]. *)
Definition extract_message (msg : message) : bool :=
  match msg with
  | Msg_title_from_metadata _ _ | Msg_title_from_first_page _ _
  | Msg_title_from_first_line _ _ | Msg_text_extract_error _ _
  | Msg_file_not_found _ | Msg_pdf_read_error _ _ | Msg_unknown_error _ _
  | Msg_no_title _ => true
  | _ => false
  end.

(** The events a title extraction from [pdf_path] may cause: opening and
    closing that file, using its reader, and its own log records. *)
Definition extract_event (pdf_path : str) (ev : event) : Prop :=
  match ev with
  | Call_open name | Call_close name => name = pdf_path
  | Call_rename _ _ => False
  | Log _ msg => extract_message msg = true
  | _ => True
  end.

(** The file with every page after the first dropped. *)
Definition keep_first_page (f : File) : File :=
  {| open_error := open_error f;
     reader :=
       match reader f with
       | inl e => inl e
       | inr rd =>
           inr {| metadata := metadata rd;
                  pages := match pages rd with
                           | inr (first_page :: _) => inr [first_page]
                           | other => other
                           end |}
       end;
     rename_error := rename_error f |}.


(** The log record of the branch that tests the sanitized title for
    emptiness. *)
Definition is_empty_title_log (ev : event) : bool :=
  match ev with
  | Log _ (Msg_empty_title _) => true
  | _ => false
  end.

(* ===================================================================== *)
(** * Part II: properties                                                 *)
(* ===================================================================== *)

(** ** Stripping *)

Section Strip.
Variable p : Z -> bool.

Lemma lstrip_by_suffix s : lstrip_by p s `suffix_of` s.
Proof.
  induction s as [|c s IH]; simpl; [done|].
  destruct (p c); [by apply suffix_cons_r | done].
Qed.

Lemma rstrip_by_prefix s : rstrip_by p s `prefix_of` s.
Proof.
  induction s as [|c s IH]; simpl; [done|].
  destruct (rstrip_by p s) as [|d r] eqn:E.
  - destruct (p c); [apply prefix_nil | apply prefix_cons, prefix_nil].
  - by apply prefix_cons.
Qed.

Lemma starts_with_lstrip s : starts_with p (lstrip_by p s) = false.
Proof.
  induction s as [|c s IH]; simpl; [done|].
  destruct (p c) eqn:E; [done | by simpl].
Qed.

Lemma ends_with_rstrip s : ends_with p (rstrip_by p s) = false.
Proof.
  induction s as [|c s IH]; simpl; [done|].
  destruct (rstrip_by p s) as [|d r] eqn:E.
  - destruct (p c) eqn:Ec; [done|]. unfold ends_with; simpl. by rewrite Ec.
  - unfold ends_with in *. by rewrite last_cons_cons.
Qed.

Lemma lstrip_by_id s : starts_with p s = false -> lstrip_by p s = s.
Proof. destruct s as [|c s]; simpl; [done|]. by intros ->. Qed.

Lemma rstrip_by_id s : ends_with p s = false -> rstrip_by p s = s.
Proof.
  induction s as [|c s IH]; simpl; [done|].
  destruct s as [|d s].
  - unfold ends_with; simpl. by intros ->.
  - unfold ends_with in *. rewrite last_cons_cons. intros H.
    rewrite (IH H). done.
Qed.

Lemma rstrip_by_nil_iff s : rstrip_by p s = [] <-> forallb p s = true.
Proof.
  induction s as [|c s IH]; simpl; [done|].
  destruct (rstrip_by p s) as [|d r] eqn:E.
  - destruct (p c); simpl; [tauto|]. split; [done | done].
  - split; [done|]. rewrite andb_true_iff. intros [_ H].
    apply IH in H. done.
Qed.
End Strip.

Lemma starts_with_prefix p (l1 l2 : str) :
  l1 `prefix_of` l2 -> starts_with p l2 = false -> starts_with p l1 = false.
Proof. intros [k ->]. by destruct l1. Qed.

Lemma starts_with_re_sub_runs s :
  starts_with isspace (re_sub_runs isspace [0x20] s) = starts_with isspace s.
Proof.
  induction s as [|c s IH]; simpl; [done|].
  destruct (isspace c) eqn:Ec.
  - destruct (starts_with isspace s) eqn:Es; [by rewrite IH | done].
  - simpl. done.
Qed.

Lemma single_spaced_re_sub_runs s :
  single_spaced (re_sub_runs isspace [0x20] s) = true.
Proof.
  induction s as [|c s IH]; simpl; [done|].
  destruct (isspace c) eqn:Ec.
  - destruct (starts_with isspace s) eqn:Es; [done|].
    simpl. rewrite starts_with_re_sub_runs, Es, IH. done.
  - simpl. by rewrite Ec, IH.
Qed.

Lemma re_sub_runs_single_spaced s :
  single_spaced s = true -> re_sub_runs isspace [0x20] s = s.
Proof.
  induction s as [|c s IH]; simpl; [done|].
  rewrite andb_true_iff. intros [Hc Hs].
  destruct (isspace c) eqn:Ec.
  - apply andb_true_iff in Hc as [Hc Hn].
    apply Z.eqb_eq in Hc. apply negb_true_iff in Hn.
    rewrite Hn, (IH Hs). simpl. by subst c.
  - by rewrite (IH Hs).
Qed.

Lemma re_sub_runs_none p rep s :
  forallb (fun c => negb (p c)) s = true -> re_sub_runs p rep s = s.
Proof.
  induction s as [|c s IH]; simpl; [done|].
  rewrite andb_true_iff. intros [Hc Hs].
  apply negb_true_iff in Hc. by rewrite Hc, (IH Hs).
Qed.

Lemma single_spaced_only_space s :
  single_spaced s = true -> Forall (fun c => isspace c = true -> c = 0x20) s.
Proof.
  induction s as [|c s IH]; simpl; [constructor|].
  rewrite andb_true_iff. intros [Hc Hs]. constructor; [|by apply IH].
  intros Ec. rewrite Ec in Hc. apply andb_true_iff in Hc as [Hc _].
  by apply Z.eqb_eq in Hc.
Qed.

Lemma newline_isspace c : newline c = true -> isspace c = true /\ c <> 0x20.
Proof.
  unfold newline, in_class; simpl. rewrite !orb_true_iff, !Z.eqb_eq.
  intros [->|[->|?]]; done.
Qed.

Lemma single_spaced_no_newline s :
  single_spaced s = true -> forallb (fun c => negb (newline c)) s = true.
Proof.
  intros H%single_spaced_only_space. apply forallb_forall.
  intros c Hc%list_elem_of_In. rewrite Forall_forall in H.
  destruct (newline c) eqn:E; [|done].
  apply newline_isspace in E as [E1 E2]. by specialize (H c Hc E1).
Qed.

Lemma single_spaced_app_l (l1 l2 : str) :
  single_spaced (l1 ++ l2) = true -> single_spaced l1 = true.
Proof.
  induction l1 as [|c l1 IH]; simpl; [done|].
  rewrite !andb_true_iff. intros [Hc Hs]. split; [|by apply IH].
  destruct (isspace c); [|done]. destruct l1; [|done].
  simpl. apply andb_true_iff in Hc as [-> _]. done.
Qed.

Lemma single_spaced_app_r (l1 l2 : str) :
  single_spaced (l1 ++ l2) = true -> single_spaced l2 = true.
Proof.
  induction l1 as [|c l1 IH]; simpl; [done|].
  rewrite !andb_true_iff. intros [_ Hs]. by apply IH.
Qed.

Lemma legal_prefix (l1 l2 : str) : l1 `prefix_of` l2 -> legal l2 -> legal l1.
Proof. intros [k ->] H. by apply Forall_app in H as [H _]. Qed.

Lemma legal_suffix (l1 l2 : str) : l1 `suffix_of` l2 -> legal l2 -> legal l1.
Proof. intros [k ->] H. by apply Forall_app in H as [_ H]. Qed.

Lemma single_spaced_prefix (l1 l2 : str) :
  l1 `prefix_of` l2 -> single_spaced l2 = true -> single_spaced l1 = true.
Proof. intros [k ->]. apply single_spaced_app_l. Qed.

Lemma single_spaced_suffix (l1 l2 : str) :
  l1 `suffix_of` l2 -> single_spaced l2 = true -> single_spaced l1 = true.
Proof. intros [k ->]. apply single_spaced_app_r. Qed.

Lemma strip_prefix_of_suffix s :
  strip s `prefix_of` lstrip_by isspace s /\ lstrip_by isspace s `suffix_of` s.
Proof. split; [apply rstrip_by_prefix | apply lstrip_by_suffix]. Qed.

Lemma legal_strip s : legal s -> legal (strip s).
Proof.
  intros H. destruct (strip_prefix_of_suffix s) as [H1 H2].
  eapply legal_prefix; [done|]. by eapply legal_suffix.
Qed.

Lemma single_spaced_strip s :
  single_spaced s = true -> single_spaced (strip s) = true.
Proof.
  intros H. destruct (strip_prefix_of_suffix s) as [H1 H2].
  eapply single_spaced_prefix; [done|]. by eapply single_spaced_suffix.
Qed.

Lemma starts_with_strip s : starts_with isspace (strip s) = false.
Proof.
  eapply starts_with_prefix; [apply rstrip_by_prefix|].
  apply starts_with_lstrip.
Qed.

Lemma length_prefix (l1 l2 : str) :
  l1 `prefix_of` l2 -> (length l1 <= length l2)%nat.
Proof. intros [k ->]. rewrite length_app. lia. Qed.

Lemma length_suffix (l1 l2 : str) :
  l1 `suffix_of` l2 -> (length l1 <= length l2)%nat.
Proof. intros [k ->]. rewrite length_app. lia. Qed.

Lemma length_strip s : (length (strip s) <= length s)%nat.
Proof.
  destruct (strip_prefix_of_suffix s) as [H1%length_prefix H2%length_suffix].
  lia.
Qed.

Lemma legal_re_sub_class s : legal (re_sub_class illegal s).
Proof.
  apply Forall_forall. intros c Hc%list_elem_of_In.
  apply filter_In in Hc as [_ Hc]. by apply negb_true_iff.
Qed.

Lemma re_sub_class_legal s : legal s -> re_sub_class illegal s = s.
Proof.
  unfold re_sub_class. induction 1 as [|c s Hc _ IH]; [done|].
  cbn [List.filter]. by rewrite Hc, IH.
Qed.

Lemma legal_re_sub_runs p s : legal s -> legal (re_sub_runs p [0x20] s).
Proof.
  induction 1 as [|c s Hc _ IH]; simpl; [constructor|].
  destruct (p c); [destruct (starts_with p s)|]; [done| |].
  - constructor; [done|]. exact IH.
  - by constructor.
Qed.

Lemma ends_with_space_dot s :
  single_spaced s = true ->
  ends_with (in_class [0x2E; 0x20]) s = false -> ends_with isspace s = false.
Proof.
  intros Hs%single_spaced_only_space. unfold ends_with.
  destruct (last s) as [c|] eqn:E; [|done].
  apply last_Some_elem_of in E. rewrite Forall_forall in Hs.
  specialize (Hs c E). intros Hd.
  destruct (isspace c) eqn:Ec; [|done].
  rewrite (Hs eq_refl) in Hd. done.
Qed.

Lemma strip_id s :
  starts_with isspace s = false -> ends_with isspace s = false -> strip s = s.
Proof.
  intros H1 H2. unfold strip. rewrite (lstrip_by_id _ _ H1).
  by apply rstrip_by_id.
Qed.

Lemma sanitize_filename_fixed r : clean r -> sanitize_filename r = r.
Proof.
  intros (Hl & Hs & Hh & He & Hn & Hne).
  unfold sanitize_filename, sanitize_steps, remove_illegal.
  rewrite (re_sub_class_legal _ Hl).
  rewrite (strip_id _ Hh (ends_with_space_dot _ Hs He)).
  rewrite (re_sub_runs_single_spaced _ Hs).
  rewrite (re_sub_runs_none _ _ _ (single_spaced_no_newline _ Hs)).
  replace (Nat.ltb max_len (length r)) with false
    by (symmetry; apply Nat.ltb_ge; exact Hn).
  unfold rstrip_chars. rewrite (rstrip_by_id _ _ He).
  by destruct r.
Qed.

Lemma clean_untitled : clean untitled.
Proof.
  assert (E : untitled = [117; 110; 116; 105; 116; 108; 101; 100])
    by reflexivity.
  rewrite E. unfold clean, legal, max_len.
  split; [repeat constructor|].
  repeat split; [simpl; lia | discriminate].
Qed.

Lemma sanitize_steps_tidy x :
  let r := sanitize_steps x in
  legal r /\ single_spaced r = true /\ starts_with isspace r = false /\
  ends_with (in_class [0x2E; 0x20]) r = false /\ (length r <= max_len)%nat.
Proof.
  unfold sanitize_steps. cbv zeta.
  set (s1 := remove_illegal x).
  assert (L1 : legal s1) by apply legal_strip, legal_re_sub_class.
  assert (H1 : starts_with isspace s1 = false) by apply starts_with_strip.
  set (s2 := re_sub_runs isspace [0x20] s1).
  assert (L2 : legal s2) by by apply legal_re_sub_runs.
  assert (S2 : single_spaced s2 = true) by apply single_spaced_re_sub_runs.
  assert (H2 : starts_with isspace s2 = false)
    by (unfold s2; by rewrite starts_with_re_sub_runs).
  rewrite (re_sub_runs_none _ _ _ (single_spaced_no_newline _ S2)).
  set (s4 := if Nat.ltb max_len (length s2) then _ else _).
  assert (T4 : legal s4 /\ single_spaced s4 = true /\
               starts_with isspace s4 = false /\ (length s4 <= max_len)%nat).
  { unfold s4. destruct (Nat.ltb max_len (length s2)) eqn:E.
    - pose proof (prefix_take s2 max_len) as P.
      repeat split.
      + apply legal_strip. by eapply legal_prefix.
      + apply single_spaced_strip. by eapply single_spaced_prefix.
      + apply starts_with_strip.
      + pose proof (length_strip (take max_len s2)).
        rewrite length_take in H. lia.
    - apply Nat.ltb_ge in E. done. }
  destruct T4 as (L4 & S4 & H4 & N4).
  pose proof (rstrip_by_prefix (in_class [0x2E; 0x20]) s4) as P.
  unfold rstrip_chars. repeat split.
  - by eapply legal_prefix.
  - by eapply single_spaced_prefix.
  - by eapply starts_with_prefix.
  - apply ends_with_rstrip.
  - apply length_prefix in P. lia.
Qed.

Lemma sanitize_filename_clean x : clean (sanitize_filename x).
Proof.
  unfold sanitize_filename. cbv zeta.
  destruct (sanitize_steps_tidy x) as (L & S & H & E & N).
  destruct (sanitize_steps x) as [|c r] eqn:Er; simpl.
  - apply clean_untitled.
  - unfold clean. repeat split; done.
Qed.

Lemma in_class_spec_banned c : in_class spec_banned c = true -> illegal c = true.
Proof.
  unfold illegal, in_class, spec_banned, illegal_chars. cbn [existsb].
  rewrite !orb_true_iff. intuition.
Qed.

Lemma filter_lstrip_by (p q : Z -> bool) s :
  (forall c, p c = true -> q c = false) ->
  List.filter q (lstrip_by p s) = List.filter q s.
Proof.
  intros H. induction s as [|c s IH]; [done|].
  cbn [lstrip_by]. destruct (p c) eqn:E; [|done].
  cbn [List.filter]. by rewrite (H c E).
Qed.

Lemma filter_rstrip_by (p q : Z -> bool) s :
  (forall c, p c = true -> q c = false) ->
  List.filter q (rstrip_by p s) = List.filter q s.
Proof.
  intros H. induction s as [|c s IH]; [done|].
  cbn [rstrip_by]. destruct (rstrip_by p s) as [|d r] eqn:E.
  - cbn [List.filter] in *. rewrite <- IH.
    destruct (p c) eqn:Ec; [by rewrite (H c Ec) | done].
  - cbn [List.filter] in *. by rewrite IH.
Qed.

Lemma filter_re_sub_class (p q : Z -> bool) s :
  (forall c, p c = true -> q c = false) ->
  List.filter q (re_sub_class p s) = List.filter q s.
Proof.
  intros H. unfold re_sub_class. induction s as [|c s IH]; [done|].
  cbn [List.filter]. destruct (p c) eqn:E; cbn [negb List.filter].
  - by rewrite (H c E).
  - by rewrite IH.
Qed.

(** ** The claims on sanitize_filename *)

(** C1.  For every input, the result of [sanitize_filename] contains no
    character of the removed class (so none of the set the specification
    lists), has at most 150 characters, does not end in a dot, a space or
    any other whitespace, and is not empty: it is the placeholder
    [untitled] exactly when the steps before leave the empty string. *)
Theorem sanitize_filename_safe (x : str) :
  Forall (fun c => illegal c = false /\ in_class spec_banned c = false)
         (sanitize_filename x) /\
  (length (sanitize_filename x) <= 150)%nat /\
  ends_with (in_class [0x2E; 0x20]) (sanitize_filename x) = false /\
  ends_with isspace (sanitize_filename x) = false /\
  sanitize_filename x <> [] /\
  sanitize_filename x =
    (if decide (sanitize_steps x = []) then untitled else sanitize_steps x).
Proof.
  destruct (sanitize_filename_clean x) as (L & S & H & E & N & NE).
  repeat split; try done.
  - eapply Forall_impl; [exact L|]. intros c Hc; simpl in Hc. split; [done|].
    destruct (in_class spec_banned c) eqn:Ec; [|done].
    apply in_class_spec_banned in Ec. congruence.
  - by apply ends_with_space_dot.
  - unfold sanitize_filename. cbv zeta.
    by destruct (sanitize_steps x).
Qed.

(** C5.  [sanitize_filename] is idempotent. *)
Theorem sanitize_filename_idempotent (x : str) :
  sanitize_filename (sanitize_filename x) = sanitize_filename x.
Proof. apply sanitize_filename_fixed, sanitize_filename_clean. Qed.

(** C7 as stated fails: the set the specification lists is not exactly the
    removed set.  The fullwidth left parenthesis is neither whitespace nor
    in the listed set, and the removal step deletes it. *)
Lemma spec_banned_not_exact : ~ removes_exactly spec_banned.
Proof.
  intros H. destruct (H [0xFF08]) as [_ E]. vm_compute in E. discriminate.
Qed.

(** C7, amended.  [sanitize_filename] removes exactly the class of the
    source, which is the listed set together with the two fullwidth
    parentheses: no character of the class is left in the result, and the
    removal step keeps, in order, every character of the input that is
    neither in the class nor whitespace. *)
Theorem illegal_chars_removed_exactly : removes_exactly illegal_chars.
Proof.
  intros x. split.
  - destruct (sanitize_filename_clean x) as (L & _). exact L.
  - unfold remove_illegal, strip.
    assert (Hs : forall c, isspace c = true -> kept illegal_chars c = false)
      by (intros c Hc; unfold kept; by rewrite Hc).
    rewrite (filter_rstrip_by _ _ _ Hs), (filter_lstrip_by _ _ _ Hs).
    apply filter_re_sub_class.
    intros c Hc. unfold kept. fold (illegal c). rewrite Hc.
    apply andb_false_r.
Qed.
(** ** The collision probe *)

Lemma uint_digits_inj d d' : uint_digits d = uint_digits d' -> d = d'.
Proof.
  revert d'. induction d; intros d'; destruct d'; simpl; intros E;
    try discriminate; try reflexivity;
    f_equal; apply IHd; congruence.
Qed.

Lemma str_of_int_inj n n' : str_of_int n = str_of_int n' -> n = n'.
Proof. intros E%uint_digits_inj. by apply Unsigned.to_uint_inj. Qed.

Section Probe.
Variables (target_dir : gset str) (base_name extension : str).

Local Abbreviation cand := (candidate base_name extension).

Lemma candidate_succ j :
  cand (j + 1)%N = base_name ++ [0x5F] ++ str_of_int (j + 1)%N ++ extension.
Proof. unfold candidate. destruct (j + 1)%N eqn:E; [lia | done]. Qed.

Lemma candidate_inj i j : cand i = cand j -> i = j.
Proof.
  unfold candidate. destruct i as [|i], j as [|j]; intros E.
  - done.
  - apply app_inv_head in E. apply (f_equal length) in E.
    rewrite !length_app in E. simpl in E. lia.
  - apply app_inv_head in E. apply (f_equal length) in E.
    rewrite !length_app in E. simpl in E. lia.
  - apply app_inv_head in E. simpl in E. injection E as E.
    apply app_inv_tail in E. by apply str_of_int_inj.
Qed.

Lemma probe_spec fuel : forall j : N,
  (forall i, (i < j)%N -> cand i ∈ target_dir) ->
  match probe fuel target_dir base_name extension (j + 1)%N (cand j) with
  | Some name => first_free target_dir base_name extension name
  | None => forall i, (i <= j + N.of_nat fuel)%N -> cand i ∈ target_dir
  end.
Proof.
  induction fuel as [|fuel IH]; intros j Hj; cbn [probe];
    case_bool_decide as Hin.
  - intros i Hi. destruct (decide (i = j)) as [->|]; [done|].
    apply Hj. lia.
  - exists j. done.
  - rewrite <- candidate_succ.
    assert (Hj' : forall i, (i < j + 1)%N -> cand i ∈ target_dir).
    { intros i Hi. destruct (decide (i = j)) as [->|]; [done|].
      apply Hj. lia. }
    specialize (IH (j + 1)%N Hj').
    destruct (probe fuel _ _ _ _ _); [done|].
    intros i Hi. apply IH. lia.
  - exists j. done.
Qed.

Lemma candidates_not_all_present :
  ~ (forall i, (i <= N.of_nat (size target_dir))%N -> cand i ∈ target_dir).
Proof.
  intros Hall.
  set (l := cand <$> (N.of_nat <$> seq 0 (S (size target_dir)))).
  assert (ND : NoDup l).
  { unfold l. apply NoDup_fmap_2; [intros ?? E; by apply candidate_inj|].
    apply NoDup_fmap_2; [intros ?? E; by apply Nat2N.inj | apply NoDup_seq]. }
  assert (Hsub : list_to_set l ⊆ target_dir).
  { intros x Hx. apply elem_of_list_to_set in Hx.
    unfold l in Hx. apply list_elem_of_fmap in Hx as (i & -> & Hi).
    apply list_elem_of_fmap in Hi as (n & -> & Hn).
    apply elem_of_seq in Hn. apply Hall. lia. }
  apply subseteq_size in Hsub.
  rewrite size_list_to_set in Hsub by done.
  unfold l in Hsub. rewrite !length_fmap, length_seq in Hsub. lia.
Qed.

Lemma probe_enough_fuel fuel :
  (size target_dir <= fuel)%nat ->
  exists name,
    find_available_filename_fuel fuel target_dir base_name extension = Some name
    /\ first_free target_dir base_name extension name.
Proof.
  intros Hf. unfold find_available_filename_fuel.
  pose proof (probe_spec fuel 0%N) as P. cbn [N.add] in P.
  change (cand 0%N) with (base_name ++ extension) in P.
  destruct (probe fuel _ _ _ _ _) as [name|].
  - exists name. split; [done|]. apply P. intros i Hi. lia.
  - exfalso. apply candidates_not_all_present. intros i Hi.
    apply P; [intros; lia | lia].
Qed.

Lemma first_free_unique n1 n2 :
  first_free target_dir base_name extension n1 ->
  first_free target_dir base_name extension n2 -> n1 = n2.
Proof.
  intros (k1 & -> & N1 & B1) (k2 & -> & N2 & B2).
  destruct (N.lt_trichotomy k1 k2) as [L|[->|L]]; [|done|].
  - by specialize (B2 _ L).
  - by specialize (B1 _ L).
Qed.

End Probe.

(** ** Title extraction *)

Lemma outcome_bind {A B : Type} (m : M A) (k : A -> M B) :
  outcome (bind m k) =
  match outcome m with
  | inl e => inl e
  | inr a => outcome (k a)
  end.
Proof.
  destruct m as [t [e|a]]; [done|]. unfold outcome; simpl.
  by destruct (k a).
Qed.

Lemma outcome_try_except {A : Type} (m : M A) (h : exn -> M A) :
  outcome (try_except m h) =
  match outcome m with
  | inl e => outcome (h e)
  | inr a => inr a
  end.
Proof.
  destruct m as [t [e|a]]; [|done]. unfold outcome; simpl.
  by destruct (h e).
Qed.

Lemma outcome_call {A : Type} ev (r : exn + A) : outcome (call ev r) = r.
Proof. reflexivity. Qed.

Lemma outcome_with_open {A : Type} fs pdf_path (body : File -> M A) :
  outcome (with_open fs pdf_path body) =
  match open_rb fs pdf_path with
  | inl e => inl e
  | inr f => outcome (body f)
  end.
Proof.
  unfold with_open. rewrite outcome_bind, outcome_call.
  destruct (open_rb fs pdf_path) as [e|f]; [done|].
  by destruct (body f).
Qed.

Lemma readable_open_rb fs pdf_path rd :
  readable fs pdf_path rd ->
  exists f, open_rb fs pdf_path = inr f /\ reader f = inr rd.
Proof.
  intros (f & Hf & Ho & Hr). exists f. split; [|done].
  unfold open_rb. by rewrite Hf, Ho.
Qed.

Lemma strip_nil_truthy s : strip s <> [] -> truthy s = true.
Proof. destruct s; [by intros [] | done]. Qed.

Lemma ends_with_strip s : ends_with isspace (strip s) = false.
Proof. apply ends_with_rstrip. Qed.

Lemma map_filter_comm {A B : Type} (f : A -> B) (p : B -> bool) (l : list A) :
  map f (List.filter (fun x => p (f x)) l) = List.filter p (map f l).
Proof.
  induction l as [|x l IH]; [done|]. cbn [List.filter map].
  destruct (p (f x)); simpl; by rewrite IH.
Qed.

Lemma find_first {A : Type} (p : A -> bool) (before : list A) x after :
  Forall (fun y => p y = false) before -> p x = true ->
  List.find p (before ++ x :: after) = Some x.
Proof.
  induction 1 as [|y l Hy _ IH]; intros Hx; simpl.
  - by rewrite Hx.
  - rewrite Hy. by apply IH.
Qed.

Lemma find_nothing {A : Type} (p : A -> bool) (l : list A) :
  Forall (fun y => p y = false) l -> List.find p l = None.
Proof. induction 1 as [|y l Hy _ IH]; simpl; [done|]. by rewrite Hy. Qed.

Section ExtractProofs.
Context `{Unicode}.

Lemma text_lines_nonblank text : text_lines text = nonblank_lines text.
Proof. unfold text_lines, nonblank_lines. apply map_filter_comm. Qed.

Lemma title_like_plausible line :
  title_like line = true <-> plausible_title line.
Proof.
  unfold title_like, plausible_title.
  rewrite !andb_true_iff, !Nat.ltb_lt, negb_true_iff. tauto.
Qed.

Lemma not_title_like line : ~ plausible_title line -> title_like line = false.
Proof.
  intros Hn. destruct (title_like line) eqn:E; [|done].
  by apply title_like_plausible in E.
Qed.

(** Every line of [text_lines] is trimmed and not empty. *)
Lemma text_lines_trimmed text :
  Forall (fun line => line <> [] /\ starts_with isspace line = false /\
                      ends_with isspace line = false) (text_lines text).
Proof.
  unfold text_lines. apply Forall_forall. intros line Hl.
  apply list_elem_of_fmap in Hl as (raw & -> & Hraw).
  apply list_elem_of_In, filter_In in Hraw as [_ Hraw].
  repeat split.
  - by destruct (strip raw).
  - apply starts_with_strip.
  - apply ends_with_strip.
Qed.

(** The results of the two steps, without their traces. *)
Lemma outcome_title_from_metadata pdf_path meta :
  outcome (title_from_metadata pdf_path meta) =
  inr (match meta with
       | Some m =>
           match title m with
           | Some t => if truthy (strip t) then Some (strip t) else None
           | None => None
           end
       | None => None
       end).
Proof.
  unfold title_from_metadata. destruct meta as [m|]; [|done].
  destruct (title m) as [t|] eqn:Et; [|done].
  assert (Hm : bool_decide (m <> ∅) = true).
  { apply bool_decide_eq_true. intros ->. unfold title in Et.
    by rewrite lookup_empty in Et. }
  rewrite Hm. destruct t as [|c t]; [done|].
  cbn [truthy andb]. by destruct (strip (c :: t)).
Qed.

Lemma outcome_title_from_first_page pdf_path first_page :
  outcome (title_from_first_page pdf_path first_page) =
  inr (match extract_text first_page with
       | inl _ => None
       | inr text =>
           if truthy text then
             match List.find title_like (text_lines text) with
             | Some line => Some line
             | None => head (text_lines text)
             end
           else None
       end).
Proof.
  unfold title_from_first_page.
  rewrite outcome_try_except, outcome_bind, outcome_call.
  destruct (extract_text first_page) as [e|text]; [done|].
  destruct (truthy text); [|done].
  destruct (List.find title_like (text_lines text)); [done|].
  by destruct (text_lines text).
Qed.

Lemma outcome_extract_body fs pdf_path :
  outcome (extract_body fs pdf_path) =
  match open_rb fs pdf_path with
  | inl e => inl e
  | inr f =>
      match reader f with
      | inl e => inl e
      | inr rd =>
          match metadata rd with
          | inl e => inl e
          | inr meta =>
              match outcome (title_from_metadata pdf_path meta) with
              | inr (Some t) => inr (Some t)
              | inr None =>
                  match pages rd with
                  | inl e => inl e
                  | inr (first_page :: _) =>
                      outcome (title_from_first_page pdf_path first_page)
                  | inr [] => inr None
                  end
              | inl e => inl e
              end
          end
      end
  end.
Proof.
  unfold extract_body. rewrite outcome_with_open.
  destruct (open_rb fs pdf_path) as [e|f]; [done|].
  rewrite outcome_bind, outcome_call.
  destruct (reader f) as [e|rd]; [done|].
  rewrite outcome_bind, outcome_call.
  destruct (metadata rd) as [e|meta]; [done|].
  rewrite outcome_bind.
  destruct (outcome (title_from_metadata pdf_path meta)) as [e|[t|]];
    [done|done|].
  rewrite outcome_bind, outcome_call.
  destruct (pages rd) as [e|[|p ps]]; done.
Qed.

Lemma outcome_extract_pdf_title fs pdf_path :
  outcome (extract_pdf_title fs pdf_path) =
  inr (match outcome (extract_body fs pdf_path) with
       | inr r => r
       | inl _ => None
       end).
Proof.
  unfold extract_pdf_title. rewrite outcome_bind, outcome_try_except.
  destruct (outcome (extract_body fs pdf_path)) as [e|[t|]]; [|done|done].
  rewrite outcome_bind. by destruct e.
Qed.

(** [extract_pdf_title] raises nothing, whatever the file does. *)
Lemma extract_pdf_title_returns fs pdf_path :
  exists r, outcome (extract_pdf_title fs pdf_path) = inr r.
Proof. rewrite outcome_extract_pdf_title. eauto. Qed.

Lemma no_usable_title_outcome pdf_path rd :
  no_usable_metadata_title rd ->
  exists meta, metadata rd = inr meta /\
    outcome (title_from_metadata pdf_path meta) = inr None.
Proof.
  intros (meta & Hm & Hno). exists meta. split; [done|].
  rewrite outcome_title_from_metadata. destruct meta as [m|]; [|done].
  destruct (title m) as [t|] eqn:Et; [|done].
  by rewrite (Hno m t eq_refl Et).
Qed.

End ExtractProofs.

(** ** The claims on the collision probe *)

(** C2.  For every set of existing names, base name and extension,
    [find_available_filename] returns the first name of the sequence
    [base + ext], [base_1 + ext], [base_2 + ext], ... that does not exist
    in the folder; the name it returns never names an existing file.  With
    base [report] and extension [.pdf] it returns [report.pdf] when that
    name is free, [report_1.pdf] when only [report.pdf] is taken, and
    [report_2.pdf] when both are taken. *)
Theorem find_available_filename_first_free
    (target_dir : gset str) (base_name extension : str) :
  (exists name,
     find_available_filename target_dir base_name extension = Some name /\
     first_free target_dir base_name extension name /\
     (name ∉ target_dir)) /\
  (lit "report.pdf" ∉ target_dir ->
   find_available_filename target_dir (lit "report") (lit ".pdf")
   = Some (lit "report.pdf")) /\
  (lit "report.pdf" ∈ target_dir -> lit "report_1.pdf" ∉ target_dir ->
   find_available_filename target_dir (lit "report") (lit ".pdf")
   = Some (lit "report_1.pdf")) /\
  (lit "report.pdf" ∈ target_dir -> lit "report_1.pdf" ∈ target_dir ->
   lit "report_2.pdf" ∉ target_dir ->
   find_available_filename target_dir (lit "report") (lit ".pdf")
   = Some (lit "report_2.pdf")).
Proof.
  assert (G : forall b e, exists name,
             find_available_filename target_dir b e = Some name /\
             first_free target_dir b e name).
  { intros b e. apply probe_enough_fuel. lia. }
  assert (R : forall k,
             first_free target_dir (lit "report") (lit ".pdf")
               (candidate (lit "report") (lit ".pdf") k) ->
             find_available_filename target_dir (lit "report") (lit ".pdf")
             = Some (candidate (lit "report") (lit ".pdf") k)).
  { intros k Hk. destruct (G (lit "report") (lit ".pdf")) as (n & -> & Hn).
    f_equal. by eapply first_free_unique. }
  split; [|split; [|split]].
  - destruct (G base_name extension) as (name & E & F).
    exists name. repeat split; [done..|]. by destruct F as (k & _ & F & _).
  - intros H0. apply (R 0%N). exists 0%N. repeat split; [done|]. lia.
  - intros H0 H1. apply (R 1%N). exists 1%N. repeat split; [done|].
    intros j Hj. by replace j with 0%N by lia.
  - intros H0 H1 H2. apply (R 2%N). exists 2%N. repeat split; [done|].
    intros j Hj.
    destruct (decide (j = 0%N)) as [->|]; [done|].
    by replace j with 1%N by lia.
Qed.

Lemma find_available_filename_first_free_witness :
  find_available_filename {[ lit "report.pdf"; lit "report_1.pdf" ]}
    (lit "report") (lit ".pdf") = Some (lit "report_2.pdf").
Proof.
  apply (find_available_filename_first_free
           {[ lit "report.pdf"; lit "report_1.pdf" ]} [] []);
    [set_solver | set_solver | ].
  rewrite not_elem_of_union, !not_elem_of_singleton. split; discriminate.
Defined.

(** C9.  The probe ends for every finite set of existing names: once the
    loop body may run as often as the folder has names, the run returns a
    name, the same for every larger bound. *)
Theorem find_available_filename_terminates
    (target_dir : gset str) (base_name extension : str) (fuel : nat) :
  (size target_dir <= fuel)%nat ->
  exists name,
    find_available_filename_fuel fuel target_dir base_name extension
    = Some name /\
    find_available_filename target_dir base_name extension = Some name.
Proof.
  intros Hf.
  destruct (probe_enough_fuel target_dir base_name extension fuel Hf)
    as (n1 & E1 & F1).
  destruct (probe_enough_fuel target_dir base_name extension
              (size target_dir) (le_n _)) as (n2 & E2 & F2).
  exists n1. split; [done|]. unfold find_available_filename.
  rewrite E2. f_equal. by eapply first_free_unique.
Qed.

Lemma find_available_filename_terminates_witness :
  exists name,
    find_available_filename_fuel 7 {[ lit "report.pdf" ]}
      (lit "report") (lit ".pdf") = Some name /\
    find_available_filename {[ lit "report.pdf" ]}
      (lit "report") (lit ".pdf") = Some name.
Proof.
  apply (find_available_filename_terminates
           {[ lit "report.pdf" ]} (lit "report") (lit ".pdf") 7).
  rewrite size_singleton. lia.
Defined.

(** ** The claims on title extraction *)

Section ExtractClaims.
Context `{Unicode}.

Lemma title_from_metadata_usable pdf_path meta t :
  title meta = Some t -> strip t <> [] ->
  title_from_metadata pdf_path (Some meta) =
  ([Log DEBUG (Msg_title_from_metadata (strip t) pdf_path)],
   inr (Some (strip t))).
Proof.
  intros Ht Hs. unfold title_from_metadata. rewrite Ht.
  assert (Hm : bool_decide (meta <> ∅) = true).
  { apply bool_decide_eq_true. intros ->. unfold title in Ht.
    by rewrite lookup_empty in Ht. }
  rewrite Hm, (strip_nil_truthy _ Hs). cbn [andb].
  by destruct (strip t).
Qed.

(** C4.  When the file opens and parses and its metadata has a title that
    is not empty after trimming, [extract_pdf_title] returns the trimmed
    title; the run reads the metadata and then stops, without asking for
    the pages or for any page text.  The title ["  My Paper  "] trims to
    ["My Paper"]. *)
Theorem metadata_title_takes_precedence
    (fs : Folder) (pdf_path : str) (rd : PdfReader) (t : str) :
  readable fs pdf_path rd -> metadata_title rd t -> strip t <> [] ->
  extract_pdf_title fs pdf_path =
    ([Call_open pdf_path; Call_PdfReader; Get_metadata;
      Log DEBUG (Msg_title_from_metadata (strip t) pdf_path);
      Call_close pdf_path],
     inr (Some (strip t))) /\
  Forall (fun ev => ev <> Get_pages /\ ev <> Call_extract_text)
         (trace (extract_pdf_title fs pdf_path)) /\
  strip (lit "  My Paper  ") = lit "My Paper".
Proof.
  intros (f & Hf & Ho & Hr) (meta & Hm & Ht) Hs.
  assert (E : extract_pdf_title fs pdf_path =
    ([Call_open pdf_path; Call_PdfReader; Get_metadata;
      Log DEBUG (Msg_title_from_metadata (strip t) pdf_path);
      Call_close pdf_path],
     inr (Some (strip t)))).
  { unfold extract_pdf_title, extract_body, with_open, open_rb.
    rewrite Hf, Ho. unfold call. cbn [bind]. rewrite Hr. cbn [bind].
    rewrite Hm. cbn [bind].
    rewrite (title_from_metadata_usable pdf_path meta t Ht Hs).
    reflexivity. }
  split; [exact E|]. split; [|reflexivity].
  rewrite E. unfold trace. cbn [fst].
  repeat constructor; discriminate.
Qed.

(** The result of a run that reaches the text of the first page. *)
Lemma outcome_first_page fs pdf_path rd first_page rest text :
  readable fs pdf_path rd -> no_usable_metadata_title rd ->
  pages rd = inr (first_page :: rest) ->
  extract_text first_page = inr text ->
  outcome (extract_pdf_title fs pdf_path) =
  inr (if truthy text then
         match List.find title_like (text_lines text) with
         | Some line => Some line
         | None => head (text_lines text)
         end
       else None).
Proof.
  intros (f & Hf & Hr)%readable_open_rb Hno Hp Ht.
  destruct (no_usable_title_outcome pdf_path rd Hno) as (meta & Hm & Hnone).
  rewrite outcome_extract_pdf_title, outcome_extract_body.
  rewrite Hf, Hr, Hm, Hnone, Hp, outcome_title_from_first_page, Ht.
  by destruct (truthy text), (List.find title_like (text_lines text)),
       (head (text_lines text)).
Qed.

(** C3.  When the metadata gives no usable title and the first page yields
    a non-empty text, [extract_pdf_title] returns the first of the trimmed,
    non-empty lines of that text that has more than 5 and fewer than 100
    characters and is not all digits; when no line is like that, it returns
    the first trimmed, non-empty line.  For a page text that starts with the
    line [3] followed by the line [Introduction to Widgets] it returns
    [Introduction to Widgets]. *)
Theorem first_page_title_rule
    (fs : Folder) (pdf_path : str) (rd : PdfReader)
    (first_page : PageObject) (rest : list PageObject) (text : str) :
  readable fs pdf_path rd -> no_usable_metadata_title rd ->
  pages rd = inr (first_page :: rest) ->
  extract_text first_page = inr text -> text <> [] ->
  (forall before line after,
     nonblank_lines text = before ++ line :: after ->
     Forall (fun l => ~ plausible_title l) before -> plausible_title line ->
     outcome (extract_pdf_title fs pdf_path) = inr (Some line)) /\
  (forall line0 others,
     nonblank_lines text = line0 :: others ->
     Forall (fun l => ~ plausible_title l) (line0 :: others) ->
     outcome (extract_pdf_title fs pdf_path) = inr (Some line0)) /\
  (text = lit "3" ++ [0x0A] ++ lit "Introduction to Widgets" ++ [0x0A]
          ++ lit "..." ->
   outcome (extract_pdf_title fs pdf_path)
   = inr (Some (lit "Introduction to Widgets"))).
Proof.
  intros Hrd Hno Hp Ht Hne.
  rewrite (outcome_first_page fs pdf_path rd first_page rest text Hrd Hno Hp Ht).
  assert (Htr : truthy text = true) by by destruct text.
  rewrite Htr, text_lines_nonblank.
  assert (First : forall before line after,
     nonblank_lines text = before ++ line :: after ->
     Forall (fun l => ~ plausible_title l) before -> plausible_title line ->
     List.find title_like (nonblank_lines text) = Some line).
  { intros before line after -> Hb Hl. apply find_first.
    - eapply Forall_impl; [exact Hb|]. intros l. apply not_title_like.
    - by apply title_like_plausible. }
  split; [|split].
  - intros before line after E Hb Hl. by rewrite (First before line after).
  - intros line0 others E Hall. rewrite find_nothing.
    + by rewrite E.
    + rewrite E. eapply Forall_impl; [exact Hall|].
      intros l. apply not_title_like.
  - intros ->.
    rewrite (First [lit "3"] (lit "Introduction to Widgets") [lit "..."]).
    + reflexivity.
    + reflexivity.
    + constructor; [|constructor]. intros [[L _] _]. vm_compute in L. lia.
    + split; [vm_compute; lia | reflexivity].
Qed.

Lemma text_lines_blank text :
  Forall (fun line => strip line = []) (split 0x0A text) ->
  text_lines text = [].
Proof.
  unfold text_lines. induction 1 as [|l ls Hl _ IH]; [done|].
  cbn [List.filter]. by rewrite Hl.
Qed.

(** C8.  A file that cannot be opened, that cannot be parsed, whose
    first-page text extraction fails, or that has neither a usable metadata
    title nor any text makes [extract_pdf_title] return [None], as a
    returned value and not as an exception; the loop counts the file as
    failed and goes on with the folder unchanged. *)
Theorem unreadable_returns_none (st : state) (pdf_path : str) :
  unreadable (folder st) pdf_path ->
  outcome (extract_pdf_title (folder st) pdf_path) = inr None /\
  outcome (process st pdf_path) = inr (count_failure st).
Proof.
  intros U.
  assert (E : outcome (extract_pdf_title (folder st) pdf_path) = inr None).
  { destruct U as [e Ho|f e Ho Hr|rd e Hrd Hm|rd e Hrd Hno Hp
                   |rd p ps e Hrd Hno Hp He|rd Hrd Hno Hp
                   |rd p ps text Hrd Hno Hp He Hb].
    - rewrite outcome_extract_pdf_title, outcome_extract_body. by rewrite Ho.
    - rewrite outcome_extract_pdf_title, outcome_extract_body.
      by rewrite Ho, Hr.
    - apply readable_open_rb in Hrd as (f & Hf & Hr).
      rewrite outcome_extract_pdf_title, outcome_extract_body.
      by rewrite Hf, Hr, Hm.
    - apply readable_open_rb in Hrd as (f & Hf & Hr).
      destruct (no_usable_title_outcome pdf_path rd Hno) as (m & Hm & Hn).
      rewrite outcome_extract_pdf_title, outcome_extract_body.
      by rewrite Hf, Hr, Hm, Hn, Hp.
    - apply readable_open_rb in Hrd as (f & Hf & Hr).
      destruct (no_usable_title_outcome pdf_path rd Hno) as (m & Hm & Hn).
      rewrite outcome_extract_pdf_title, outcome_extract_body.
      by rewrite Hf, Hr, Hm, Hn, Hp, outcome_title_from_first_page, He.
    - apply readable_open_rb in Hrd as (f & Hf & Hr).
      destruct (no_usable_title_outcome pdf_path rd Hno) as (m & Hm & Hn).
      rewrite outcome_extract_pdf_title, outcome_extract_body.
      by rewrite Hf, Hr, Hm, Hn, Hp.
    - rewrite (outcome_first_page _ _ rd p ps text Hrd Hno Hp He).
      rewrite (text_lines_blank _ Hb). by destruct (truthy text). }
  split; [exact E|].
  unfold process. rewrite !outcome_bind. cbn. by rewrite E.
Qed.

(** C10.  A title that [extract_pdf_title] returns is never empty and has
    no whitespace at either end. *)
Theorem extracted_title_trimmed (fs : Folder) (pdf_path : str) (t : str) :
  outcome (extract_pdf_title fs pdf_path) = inr (Some t) ->
  t <> [] /\ starts_with isspace t = false /\ ends_with isspace t = false.
Proof.
  rewrite outcome_extract_pdf_title, outcome_extract_body.
  destruct (open_rb fs pdf_path) as [e|f]; [done|].
  destruct (reader f) as [e|rd]; [done|].
  destruct (metadata rd) as [e|meta]; [done|].
  rewrite outcome_title_from_metadata.
  assert (Strip : forall s r, (if truthy (strip s) then Some (strip s)
                               else None) = Some r ->
            r <> [] /\ starts_with isspace r = false /\
            ends_with isspace r = false).
  { intros s r E. destruct (strip s) as [|c s'] eqn:Es; [done|].
    cbn in E. injection E as <-. rewrite <- Es.
    repeat split; [by rewrite Es | apply starts_with_strip
                  | apply ends_with_strip]. }
  assert (Page : forall p r,
            match outcome (title_from_first_page pdf_path p) with
            | inl _ => None
            | inr x => x
            end = Some r ->
            r <> [] /\ starts_with isspace r = false /\
            ends_with isspace r = false).
  { intros p r. rewrite outcome_title_from_first_page.
    destruct (extract_text p) as [e|text]; [done|].
    destruct (truthy text); [|done].
    pose proof (text_lines_trimmed text) as T. rewrite Forall_forall in T.
    destruct (List.find title_like (text_lines text)) as [line|] eqn:F.
    - intros [= <-]. apply find_some in F as [F _].
      apply T. by apply list_elem_of_In.
    - destruct (text_lines text) as [|l0 ls]; [done|].
      intros [= <-]. apply T. left. }
  destruct meta as [m|].
  - destruct (title m) as [t0|].
    + destruct (if truthy (strip t0) then Some (strip t0) else None)
        as [r|] eqn:E.
      * intros [= <-]. by eapply Strip.
      * destruct (pages rd) as [e|[|p ps]]; [done|done|].
        intros [= Hp]. by apply (Page p).
    + destruct (pages rd) as [e|[|p ps]]; [done|done|].
      intros [= Hp]. by apply (Page p).
  - destruct (pages rd) as [e|[|p ps]]; [done|done|].
    intros [= Hp]. by apply (Page p).
Qed.

End ExtractClaims.

(** Runs of the model on sample folders. *)

Lemma metadata_title_takes_precedence_witness :
  outcome (@extract_pdf_title ascii_digits_only
             {[ lit "a.pdf" := sample_file (Some (lit "  My Paper  ")) [] ]}
             (lit "a.pdf"))
  = inr (Some (lit "My Paper")).
Proof.
  pose proof (@metadata_title_takes_precedence ascii_digits_only
    {[ lit "a.pdf" := sample_file (Some (lit "  My Paper  ")) [] ]}
    (lit "a.pdf")
    {| metadata := inr (Some {[ lit "/Title" := lit "  My Paper  " ]});
       pages := inr [] |}
    (lit "  My Paper  ")) as W.
  destruct W as (E & _ & _).
  - eexists. split; [apply lookup_singleton_eq|]. split; reflexivity.
  - eexists. split; [reflexivity|]. apply lookup_singleton_eq.
  - discriminate.
  - rewrite E. reflexivity.
Defined.

Lemma first_page_title_rule_witness :
  outcome (@extract_pdf_title ascii_digits_only
             {[ lit "a.pdf" :=
                  sample_file None
                    [inr (lit "3" ++ [0x0A] ++ lit "Introduction to Widgets"
                          ++ [0x0A] ++ lit "...")] ]}
             (lit "a.pdf"))
  = inr (Some (lit "Introduction to Widgets")).
Proof.
  eapply (@first_page_title_rule ascii_digits_only
    {[ lit "a.pdf" :=
         sample_file None
           [inr (lit "3" ++ [0x0A] ++ lit "Introduction to Widgets"
                 ++ [0x0A] ++ lit "...")] ]}
    (lit "a.pdf")
    {| metadata := inr None;
       pages := inr [ {| extract_text :=
                           inr (lit "3" ++ [0x0A]
                                ++ lit "Introduction to Widgets"
                                ++ [0x0A] ++ lit "...") |} ] |}).
  - eexists. split; [apply lookup_singleton_eq|]. split; reflexivity.
  - exists None. split; [reflexivity|]. intros m t E. discriminate.
  - reflexivity.
  - reflexivity.
  - discriminate.
  - reflexivity.
Defined.

Lemma unreadable_returns_none_witness :
  outcome (@extract_pdf_title ascii_digits_only
             {[ lit "a.pdf" := sample_file None [inl PdfReadError] ]}
             (lit "a.pdf")) = inr None.
Proof.
  refine (proj1 (@unreadable_returns_none ascii_digits_only
    {| folder := {[ lit "a.pdf" := sample_file None [inl PdfReadError] ]};
       rename_count := 0; fail_count := 0 |} (lit "a.pdf") _)).
  cbn [folder]. eapply (text_extraction_fails _ _
    {| metadata := inr None;
       pages := inr [ {| extract_text := inl PdfReadError |} ] |}).
  - eexists. split; [apply lookup_singleton_eq|]. split; reflexivity.
  - exists None. split; [reflexivity|]. intros m t E. discriminate.
  - reflexivity.
  - reflexivity.
Defined.

Lemma extracted_title_trimmed_witness :
  lit "My Paper" <> [] /\ starts_with isspace (lit "My Paper") = false /\
  ends_with isspace (lit "My Paper") = false.
Proof.
  apply (@extracted_title_trimmed ascii_digits_only
    {[ lit "a.pdf" := sample_file (Some (lit "  My Paper  ")) [] ]}
    (lit "a.pdf")).
  reflexivity.
Defined.

(** ** The batch loop and its two counters *)

Section BatchProofs.
Context `{Unicode}.




End BatchProofs.

(** C6, evaluated on the code.  A folder with [Foo.pdf], whose title is
    already [Foo], and [untitled.pdf], whose title sanitizes to the
    placeholder: the loop goes through both files, skips both, and the
    summary reports 0 renamed and 0 failed or skipped, so the two counts
    do not add up to the 2 files processed. *)
Theorem skipped_files_not_counted :
  let fs : Folder :=
    {[ lit "Foo.pdf" := sample_file (Some (lit "Foo")) [];
       lit "untitled.pdf" := sample_file (Some (lit "?")) [] ]} in
  let listing := [lit "Foo.pdf"; lit "untitled.pdf"] in
  let run := @rename_pdfs_in_folder ascii_digits_only (Some fs) listing in
  length (glob_pdf listing) = 2%nat /\
  last (trace run) = Some (Log INFO (Msg_summary 0 0)) /\
  In (Log INFO (Msg_no_change (lit "Foo.pdf"))) (trace run) /\
  In (Log WARNING (Msg_already_untitled (lit "untitled.pdf"))) (trace run) /\
  exists st, outcome run = inr (Some st) /\
    rename_count st = 0%N /\ fail_count st = 0%N /\
    (rename_count st + fail_count st <> N.of_nat (length (glob_pdf listing)))%N.
Proof.
  cbv zeta.
  set (run := rename_pdfs_in_folder _ _).
  assert (E : run =
    ([Log INFO (Msg_processing (lit "Foo.pdf"));
      Call_open (lit "Foo.pdf"); Call_PdfReader; Get_metadata;
      Log DEBUG (Msg_title_from_metadata (lit "Foo") (lit "Foo.pdf"));
      Call_close (lit "Foo.pdf");
      Log INFO (Msg_no_change (lit "Foo.pdf"));
      Log INFO (Msg_processing (lit "untitled.pdf"));
      Call_open (lit "untitled.pdf"); Call_PdfReader; Get_metadata;
      Log DEBUG (Msg_title_from_metadata (lit "?") (lit "untitled.pdf"));
      Call_close (lit "untitled.pdf");
      Log WARNING (Msg_already_untitled (lit "untitled.pdf"));
      Log INFO (Msg_summary 0 0)],
     inr (Some {| folder :=
                    {[ lit "Foo.pdf" := sample_file (Some (lit "Foo")) [];
                       lit "untitled.pdf" := sample_file (Some (lit "?")) [] ]};
                  rename_count := 0; fail_count := 0 |})))
    by (vm_compute; reflexivity).
  rewrite E. split; [reflexivity|]. split; [reflexivity|].
  split; [cbn; tauto|]. split; [cbn; tauto|].
  eexists. split; [reflexivity|]. cbn. repeat split. discriminate.
Qed.

(* ===================================================================== *)
(** * Part III: further properties of the code                            *)
(* ===================================================================== *)

(** ** sanitize_filename *)

Lemma Forall_prefix_of {A : Type} (P : A -> Prop) (l1 l2 : list A) :
  l1 `prefix_of` l2 -> Forall P l2 -> Forall P l1.
Proof. intros [k ->] F. by apply Forall_app in F as [F _]. Qed.

Lemma Forall_suffix_of {A : Type} (P : A -> Prop) (l1 l2 : list A) :
  l1 `suffix_of` l2 -> Forall P l2 -> Forall P l1.
Proof. intros [k ->] F. by apply Forall_app in F as [_ F]. Qed.

Lemma Forall_strip (P : Z -> Prop) s : Forall P s -> Forall P (strip s).
Proof.
  intros F. destruct (strip_prefix_of_suffix s) as [H1 H2].
  eapply Forall_prefix_of; [done|]. by eapply Forall_suffix_of.
Qed.

Lemma Forall_re_sub_runs (P : Z -> Prop) p rep s :
  Forall P rep -> Forall P s -> Forall P (re_sub_runs p rep s).
Proof.
  intros Hr. induction 1 as [|c s Hc _ IH]; cbn [re_sub_runs]; [constructor|].
  destruct (p c); [destruct (starts_with p s)|]; [done| |].
  - by apply Forall_app.
  - by constructor.
Qed.

Lemma filter_prefix_of {A : Type} (q : A -> bool) (l1 l2 : list A) :
  l1 `prefix_of` l2 -> List.filter q l1 `prefix_of` List.filter q l2.
Proof. intros [k ->]. rewrite List.filter_app. by eexists. Qed.

Lemma filter_re_sub_runs (p q : Z -> bool) rep s :
  (forall c, p c = true -> q c = false) -> List.filter q rep = [] ->
  List.filter q (re_sub_runs p rep s) = List.filter q s.
Proof.
  intros Hp Hr. induction s as [|c s IH]; [done|].
  cbn [re_sub_runs List.filter]. destruct (p c) eqn:E.
  - rewrite (Hp c E). destruct (starts_with p s); [done|].
    by rewrite List.filter_app, Hr.
  - cbn [List.filter]. by rewrite IH.
Qed.

Lemma filter_strip (q : Z -> bool) s :
  (forall c, isspace c = true -> q c = false) ->
  List.filter q (strip s) = List.filter q s.
Proof.
  intros Hq. unfold strip.
  by rewrite (filter_rstrip_by _ _ _ Hq), (filter_lstrip_by _ _ _ Hq).
Qed.

Lemma filter_legal s :
  legal s ->
  List.filter (fun c => negb (isspace c)) s = List.filter (kept illegal_chars) s.
Proof.
  induction 1 as [|c s Hc _ IH]; [done|]. cbn [List.filter].
  unfold kept at 1. fold (illegal c). rewrite Hc, andb_true_r.
  destruct (negb (isspace c)); by rewrite IH.
Qed.

(** X1.  The names [sanitize_filename] leaves unchanged are exactly the
    clean ones. *)
Theorem sanitize_filename_fixed_points (r : str) :
  sanitize_filename r = r <-> clean r.
Proof.
  split.
  - intros <-. apply sanitize_filename_clean.
  - apply sanitize_filename_fixed.
Qed.

(** X2.  In every result whitespace occurs only as single U+0020
    characters, never two in a row and never in first position. *)
Theorem sanitize_filename_single_spaced (x : str) :
  single_spaced (sanitize_filename x) = true /\
  starts_with isspace (sanitize_filename x) = false /\
  Forall (fun c => isspace c = true -> c = 0x20) (sanitize_filename x).
Proof.
  destruct (sanitize_filename_clean x) as (_ & S & H & _).
  repeat split; [done..|]. by apply single_spaced_only_space.
Qed.

Lemma newline_runs_gone (s : str) :
  re_sub_runs newline [0x20] (re_sub_runs isspace [0x20] s)
  = re_sub_runs isspace [0x20] s.
Proof.
  apply re_sub_runs_none, single_spaced_no_newline, single_spaced_re_sub_runs.
Qed.

(** X3.  The third substitution of the body, of line breaks by a space,
    never changes anything: the second one has already replaced every run
    of whitespace, line breaks included. *)
Theorem newline_substitution_is_identity (s : str) :
  re_sub_runs newline [0x20] (re_sub_runs isspace [0x20] s)
  = re_sub_runs isspace [0x20] s.
Proof. apply newline_runs_gone. Qed.

(** X4.  A title made only of removed characters, whitespace and dots
    becomes the placeholder. *)
Theorem sanitize_filename_junk_is_untitled (x : str) :
  Forall (fun c => illegal c = true \/ isspace c = true \/ c = 0x2E) x ->
  sanitize_filename x = untitled.
Proof.
  intros J.
  assert (E : sanitize_steps x = []); [|unfold sanitize_filename; by rewrite E].
  unfold sanitize_steps. cbv zeta.
  set (s1 := remove_illegal x).
  assert (D1 : Forall (fun c => isspace c = true \/ c = 0x2E) s1).
  { apply Forall_strip. unfold re_sub_class. apply Forall_forall.
    intros c Hc%list_elem_of_In. apply filter_In in Hc as [Hc Hl].
    apply list_elem_of_In in Hc. rewrite Forall_forall in J.
    apply negb_true_iff in Hl. fold (illegal c) in Hl.
    destruct (J c Hc) as [?|?]; [congruence | done]. }
  rewrite newline_runs_gone.
  set (s2 := re_sub_runs isspace [0x20] s1).
  assert (D2 : Forall (fun c => c = 0x2E \/ c = 0x20) s2).
  { pose proof (single_spaced_only_space _ (single_spaced_re_sub_runs s1)) as O.
    fold s2 in O.
    assert (D : Forall (fun c => isspace c = true \/ c = 0x2E) s2).
    { apply Forall_re_sub_runs; [repeat constructor; by left | done]. }
    rewrite Forall_forall in O, D. apply Forall_forall. intros c Hc.
    destruct (D c Hc) as [Hs| ->]; [right; by apply O | by left]. }
  set (s4 := if Nat.ltb max_len (length s2) then _ else _).
  assert (D4 : Forall (fun c => c = 0x2E \/ c = 0x20) s4).
  { unfold s4. destruct (Nat.ltb max_len (length s2)); [|done].
    apply Forall_strip. eapply Forall_prefix_of; [apply prefix_take | done]. }
  unfold rstrip_chars. apply rstrip_by_nil_iff, forallb_forall.
  intros c Hc%list_elem_of_In. rewrite Forall_forall in D4.
  by destruct (D4 c Hc) as [-> | ->].
Qed.

Lemma sanitize_filename_junk_is_untitled_witness :
  sanitize_filename (lit " ?.. ") = untitled.
Proof.
  apply (sanitize_filename_junk_is_untitled (lit " ?.. ")).
  repeat constructor; vm_compute; tauto.
Defined.

(** X5.  The characters of the sanitized title that are not whitespace are
    an initial segment of the characters of the title that are neither
    removed nor whitespace, in the same order: nothing is reordered or
    invented, the end may be cut off. *)
Theorem sanitize_steps_keeps_order (x : str) :
  List.filter (fun c => negb (isspace c)) (sanitize_steps x)
  `prefix_of` List.filter (kept illegal_chars) x.
Proof.
  assert (Q : forall c, isspace c = true -> negb (isspace c) = false)
    by (by intros c ->).
  assert (K : forall c, isspace c = true -> kept illegal_chars c = false)
    by (intros c Hc; unfold kept; by rewrite Hc).
  unfold sanitize_steps. cbv zeta.
  rewrite newline_runs_gone.
  set (s1 := remove_illegal x).
  assert (E1 : List.filter (fun c => negb (isspace c)) s1
               = List.filter (kept illegal_chars) x).
  { rewrite filter_legal by apply legal_strip, legal_re_sub_class.
    unfold s1, remove_illegal. rewrite (filter_strip _ _ K).
    apply filter_re_sub_class. intros c Hc. unfold kept.
    fold (illegal c). rewrite Hc. apply andb_false_r. }
  set (s2 := re_sub_runs isspace [0x20] s1).
  assert (E2 : List.filter (fun c => negb (isspace c)) s2
               = List.filter (kept illegal_chars) x).
  { unfold s2. rewrite (filter_re_sub_runs isspace _ [0x20] s1 Q); done. }
  rewrite <- E2.
  set (s4 := if Nat.ltb max_len (length s2) then _ else _).
  assert (P4 : List.filter (fun c => negb (isspace c)) s4
               `prefix_of` List.filter (fun c => negb (isspace c)) s2).
  { unfold s4. destruct (Nat.ltb max_len (length s2)); [|done].
    rewrite (filter_strip _ _ Q). apply filter_prefix_of, prefix_take. }
  etrans; [|exact P4]. apply filter_prefix_of, rstrip_by_prefix.
Qed.

(** ** File names: stem and suffix *)

Lemma rfind_None c s : c ∉ s -> rfind c s = None.
Proof.
  induction s as [|d s IH]; [done|]. intros Hn. cbn [rfind].
  rewrite IH by set_solver.
  destruct (d =? c) eqn:E; [|done]. apply Z.eqb_eq in E. set_solver.
Qed.

Lemma rfind_last c (base tail : str) :
  c ∉ tail -> rfind c (base ++ c :: tail) = Some (length base).
Proof.
  intros Hn. induction base as [|d b IH]; cbn [rfind app length].
  - by rewrite (rfind_None _ _ Hn), Z.eqb_refl.
  - by rewrite IH.
Qed.

(** X6.  A file name is its stem followed by its suffix. *)
Theorem stem_suffix_name (name : str) : stem name ++ suffix name = name.
Proof.
  unfold stem, suffix. destruct (rfind 0x2E name) as [i|].
  - destruct (_ && _); [apply take_drop | apply app_nil_r].
  - apply app_nil_r.
Qed.

(** X7.  For a name made of a non-empty base, a dot and a non-empty
    extension without dots, the suffix is the dot with the extension and
    the stem is the base. *)
Theorem stem_suffix_of_extension (base ext : str) :
  base <> [] -> ext <> [] -> 0x2E ∉ ext ->
  suffix (base ++ 0x2E :: ext) = 0x2E :: ext /\
  stem (base ++ 0x2E :: ext) = base.
Proof.
  intros Hb He Hd. unfold suffix, stem. rewrite (rfind_last _ _ _ Hd).
  assert (C : Nat.ltb 0 (length base)
              && Nat.ltb (length base) (length (base ++ 0x2E :: ext) - 1)
              = true).
  { apply andb_true_iff. rewrite !Nat.ltb_lt, length_app. cbn [length].
    destruct base; [done|]. destruct ext; [done|]. cbn [length]. lia. }
  rewrite C. split; [apply drop_app_length | apply take_app_length].
Qed.

Lemma stem_suffix_of_extension_witness :
  suffix (lit "report.v2.pdf") = lit ".pdf" /\
  stem (lit "report.v2.pdf") = lit "report.v2".
Proof.
  apply (stem_suffix_of_extension (lit "report.v2") (lit "pdf"));
    [discriminate | discriminate | ].
  apply not_elem_of_cons. split; [discriminate|].
  apply not_elem_of_cons. split; [discriminate|].
  apply not_elem_of_cons. split; [discriminate|]. apply not_elem_of_nil.
Defined.

(** ** The collision probe: the shape of the result *)

Lemma free_prefix_bound (target_dir : gset str) (base_name extension : str)
    (k : N) :
  (forall j, (j < k)%N -> candidate base_name extension j ∈ target_dir) ->
  (k <= N.of_nat (size target_dir))%N.
Proof.
  intros Hall.
  set (l := candidate base_name extension
              <$> (N.of_nat <$> seq 0 (N.to_nat k))).
  assert (ND : NoDup l).
  { unfold l. apply NoDup_fmap_2; [intros ?? E; by eapply candidate_inj|].
    apply NoDup_fmap_2; [intros ?? E; by apply Nat2N.inj | apply NoDup_seq]. }
  assert (Hsub : list_to_set l ⊆ target_dir).
  { intros x Hx. apply elem_of_list_to_set in Hx.
    unfold l in Hx. apply list_elem_of_fmap in Hx as (i & -> & Hi).
    apply list_elem_of_fmap in Hi as (n & -> & Hn).
    apply elem_of_seq in Hn. apply Hall. lia. }
  apply subseteq_size in Hsub.
  rewrite size_list_to_set in Hsub by done.
  unfold l in Hsub. rewrite !length_fmap, length_seq in Hsub. lia.
Qed.

(** X8.  The name [find_available_filename] returns is the base name
    directly followed by the extension, or the base name, an underscore,
    a counter and the extension; the counter is at least 1 and at most the
    number of names that exist in the folder. *)
Theorem find_available_filename_shape
    (target_dir : gset str) (base_name extension name : str) :
  find_available_filename target_dir base_name extension = Some name ->
  name = base_name ++ extension \/
  exists k : N,
    (1 <= k <= N.of_nat (size target_dir))%N /\
    name = base_name ++ [0x5F] ++ str_of_int k ++ extension.
Proof.
  intros E.
  destruct (probe_enough_fuel target_dir base_name extension
              (size target_dir) (le_n _)) as (n & E' & k & -> & _ & B).
  unfold find_available_filename in E. rewrite E' in E. injection E as <-.
  destruct k as [|p]; [by left|]. right. exists (N.pos p).
  split; [|done]. split; [lia|].
  by apply (free_prefix_bound target_dir base_name extension).
Qed.

Lemma find_available_filename_shape_witness :
  lit "report_1.pdf" = lit "report" ++ lit ".pdf" \/
  exists k : N,
    (1 <= k <= N.of_nat (size ({[ lit "report.pdf" ]} : gset str)))%N /\
    lit "report_1.pdf" = lit "report" ++ [0x5F] ++ str_of_int k ++ lit ".pdf".
Proof.
  apply (find_available_filename_shape {[ lit "report.pdf" ]}
           (lit "report") (lit ".pdf") (lit "report_1.pdf")).
  vm_compute. reflexivity.
Defined.

(** ** Traces *)

Lemma trace_bind {A B : Type} (m : M A) (k : A -> M B) :
  trace (bind m k) =
  trace m ++ match outcome m with
             | inl _ => []
             | inr a => trace (k a)
             end.
Proof.
  destruct m as [t [e|a]]; unfold trace, outcome; simpl.
  - by rewrite app_nil_r.
  - by destruct (k a).
Qed.

Lemma trace_try_except {A : Type} (m : M A) (h : exn -> M A) :
  trace (try_except m h) =
  trace m ++ match outcome m with
             | inl e => trace (h e)
             | inr _ => []
             end.
Proof.
  destruct m as [t [e|a]]; unfold trace, outcome; simpl.
  - by destruct (h e).
  - by rewrite app_nil_r.
Qed.

Lemma trace_with_open {A : Type} fs pdf_path (body : File -> M A) :
  trace (with_open fs pdf_path body) =
  Call_open pdf_path ::
    match open_rb fs pdf_path with
    | inl _ => []
    | inr f => trace (body f) ++ [Call_close pdf_path]
    end.
Proof.
  unfold with_open. rewrite trace_bind. unfold call at 1, trace at 1.
  cbn [fst app]. rewrite outcome_call.
  destruct (open_rb fs pdf_path) as [e|f]; [done|].
  by destruct (body f).
Qed.

Lemma Forall_trace_bind {A B : Type} (Q : event -> Prop)
    (m : M A) (k : A -> M B) :
  Forall Q (trace m) -> (forall a, Forall Q (trace (k a))) ->
  Forall Q (trace (bind m k)).
Proof.
  intros Hm Hk. rewrite trace_bind. apply Forall_app. split; [done|].
  destruct (outcome m); [constructor | apply Hk].
Qed.

Lemma Forall_trace_try_except {A : Type} (Q : event -> Prop)
    (m : M A) (h : exn -> M A) :
  Forall Q (trace m) -> (forall e, Forall Q (trace (h e))) ->
  Forall Q (trace (try_except m h)).
Proof.
  intros Hm Hh. rewrite trace_try_except. apply Forall_app. split; [done|].
  destruct (outcome m); [apply Hh | constructor].
Qed.

Lemma Forall_trace_call {A : Type} (Q : event -> Prop) ev (r : exn + A) :
  Q ev -> Forall Q (trace (call ev r)).
Proof. intros. by repeat constructor. Qed.

Lemma Forall_trace_log (Q : event -> Prop) lv msg :
  Q (Log lv msg) -> Forall Q (trace (log lv msg)).
Proof. intros. by repeat constructor. Qed.

Lemma Forall_trace_ret {A : Type} (Q : event -> Prop) (a : A) :
  Forall Q (trace (ret a)).
Proof. constructor. Qed.

(** ** Title extraction: effects *)

Section ExtractEffects.
Context `{Unicode}.

(** The part of the body of the [with] statement after the file is open
    only uses the reader and logs. *)
Lemma title_from_metadata_events (Q : event -> Prop) pdf_path meta :
  (forall lv msg, extract_message msg = true -> Q (Log lv msg)) ->
  Forall Q (trace (title_from_metadata pdf_path meta)).
Proof.
  intros HQ. unfold title_from_metadata.
  destruct meta as [m|]; [|constructor].
  destruct (title m) as [t|]; [|constructor].
  destruct (_ && _); [|constructor].
  destruct (truthy _); [|constructor].
  apply Forall_trace_bind; [by apply Forall_trace_log, HQ | intros; constructor].
Qed.

Lemma title_from_first_page_events (Q : event -> Prop) pdf_path first_page :
  (forall lv msg, extract_message msg = true -> Q (Log lv msg)) ->
  Q Call_extract_text ->
  Forall Q (trace (title_from_first_page pdf_path first_page)).
Proof.
  intros HQ HE. unfold title_from_first_page.
  apply Forall_trace_try_except.
  - apply Forall_trace_bind; [by apply Forall_trace_call|]. intros text.
    destruct (truthy text); [|constructor].
    destruct (List.find _ _).
    + apply Forall_trace_bind; [by apply Forall_trace_log, HQ | intros; constructor].
    + destruct (text_lines text); [constructor|].
      apply Forall_trace_bind; [by apply Forall_trace_log, HQ | intros; constructor].
  - intros e. apply Forall_trace_bind;
      [by apply Forall_trace_log, HQ | intros; constructor].
Qed.

(** The trace of a run, split at the opening and the closing of the
    file. *)
(** Every event of a run is of one of the kinds of [extract_event]. *)
Lemma extract_pdf_title_events (Q : event -> Prop) fs pdf_path :
  Q (Call_open pdf_path) -> Q (Call_close pdf_path) ->
  (forall ev, uses_reader ev = true -> Q ev) ->
  (forall lv msg, extract_message msg = true -> Q (Log lv msg)) ->
  Forall Q (trace (extract_pdf_title fs pdf_path)).
Proof.
  intros HO HC HR HQ. unfold extract_pdf_title.
  apply Forall_trace_bind.
  - apply Forall_trace_try_except.
    + unfold extract_body. rewrite trace_with_open. constructor; [done|].
      destruct (open_rb fs pdf_path) as [e|f]; [constructor|].
      apply Forall_app. split; [|by repeat constructor].
      apply Forall_trace_bind; [by apply Forall_trace_call, HR|]. intros rd.
      apply Forall_trace_bind; [by apply Forall_trace_call, HR|]. intros meta.
      apply Forall_trace_bind; [by apply title_from_metadata_events|].
      intros [t|]; [constructor|].
      apply Forall_trace_bind; [by apply Forall_trace_call, HR|].
      intros [|p ps]; [constructor|].
      apply title_from_first_page_events; [done | by apply HR].
    + intros e. apply Forall_trace_bind; [|intros; constructor].
      destruct e; by apply Forall_trace_log, HQ.
  - intros [t|]; [constructor|].
    apply Forall_trace_bind; [by apply Forall_trace_log, HQ | intros; constructor].
Qed.

Lemma trace_extract_pdf_title fs pdf_path :
  exists t1 t2,
    trace (extract_pdf_title fs pdf_path) =
      Call_open pdf_path ::
        match open_rb fs pdf_path with
        | inl _ => t2
        | inr _ => t1 ++ Call_close pdf_path :: t2
        end /\
    Forall (fun ev => uses_reader ev || is_log ev = true) t1 /\
    Forall (fun ev => is_log ev = true) t2.
Proof.
  unfold extract_pdf_title. rewrite trace_bind, trace_try_except.
  unfold extract_body at 1. rewrite trace_with_open.
  match goal with
  | |- exists t1 t2, (_ ++ ?X) ++ ?Y = _ /\ _ =>
      set (tail := X ++ Y);
      assert (T : Forall (fun ev => is_log ev = true) tail);
      [unfold tail; apply Forall_app; split|]
  end.
  { destruct (outcome (extract_body fs pdf_path)) as [e|r]; [|constructor].
    apply Forall_trace_bind; [|intros; constructor].
    destruct e; by apply Forall_trace_log. }
  { destruct (outcome (try_except _ _)) as [e|[t|]]; [constructor..|].
    apply Forall_trace_bind; [by apply Forall_trace_log | intros; constructor]. }
  rewrite <- app_assoc. fold tail.
  destruct (open_rb fs pdf_path) as [e|f] eqn:Eo.
  - exists [], tail. repeat split; [constructor | done].
  - eexists _, tail. split; [|split; [|exact T]].
    + cbn [app]. rewrite <- app_assoc. reflexivity.
    + apply Forall_trace_bind; [by apply Forall_trace_call|]. intros rd.
      apply Forall_trace_bind; [by apply Forall_trace_call|]. intros meta.
      apply Forall_trace_bind;
        [apply title_from_metadata_events; intros; apply orb_true_r|].
      intros [t|]; [constructor|].
      apply Forall_trace_bind; [by apply Forall_trace_call|].
      intros [|p ps]; [constructor|].
      apply title_from_first_page_events; [intros; apply orb_true_r | done].
Qed.

End ExtractEffects.

Section ExtractExtras.
Context `{Unicode}.

(** X9.  [extract_pdf_title] raises nothing, whatever opening, parsing or
    reading the file does: every exception of the collaborators is caught
    and the function returns a title or [None]. *)
Theorem extract_pdf_title_never_raises (fs : Folder) (pdf_path : str) :
  exists r : option str, outcome (extract_pdf_title fs pdf_path) = inr r.
Proof. apply extract_pdf_title_returns. Qed.

(** X10.  A run opens the file once, first of all.  When the file opens,
    it is closed exactly once, after every use of the reader, and what
    follows is logging only; when it does not open, it is never closed and
    the reader is never used. *)
Theorem extract_pdf_title_closes_file (fs : Folder) (pdf_path : str) :
  exists t1 t2,
    trace (extract_pdf_title fs pdf_path) =
      Call_open pdf_path ::
        match open_rb fs pdf_path with
        | inl _ => t2
        | inr _ => t1 ++ Call_close pdf_path :: t2
        end /\
    Forall (fun ev => uses_reader ev || is_log ev = true) t1 /\
    Forall (fun ev => is_log ev = true) t2.
Proof. apply trace_extract_pdf_title. Qed.

(** X11.  A run touches no file but its own and renames nothing: the only
    file it opens or closes is [pdf_path], and its log records are the
    eight messages of the function. *)
Theorem extract_pdf_title_read_only (fs : Folder) (pdf_path : str) :
  Forall (extract_event pdf_path) (trace (extract_pdf_title fs pdf_path)).
Proof.
  apply extract_pdf_title_events; [done | done | by intros [] | done].
Qed.

(** X12.  Only the first page counts: dropping every later page of every
    file changes neither the result nor the trace of a run. *)
Theorem extract_pdf_title_first_page_only (fs : Folder) (pdf_path : str) :
  extract_pdf_title (keep_first_page <$> fs) pdf_path
  = extract_pdf_title fs pdf_path.
Proof.
  unfold extract_pdf_title. f_equal. f_equal.
  unfold extract_body, with_open, open_rb. rewrite lookup_fmap.
  destruct (fs !! pdf_path) as [f|]; [|done]. cbn [fmap option_fmap option_map].
  change (open_error (keep_first_page f)) with (open_error f).
  destruct (open_error f); [done|].
  unfold call. cbn [bind]. unfold keep_first_page at 1. cbn [reader].
  destruct (reader f) as [e|rd]; [done|]. cbn [bind metadata pages].
  destruct (metadata rd) as [e|meta]; [done|]. cbn [bind].
  destruct (title_from_metadata pdf_path meta) as [t [e|[r|]]]; [done..|].
  cbn [bind]. by destruct (pages rd) as [e|[|p ps]].
Qed.

End ExtractExtras.

(** ** The batch loop: files and counters *)




Section BatchExtras.
Context `{Unicode}.








Lemma rename_to_title_events (Q : event -> Prop) st pdf_path t :
  (forall ev, is_empty_title_log ev = false -> Q ev) ->
  Forall Q (trace (rename_to_title st pdf_path t)).
Proof.
  intros HQ. unfold rename_to_title. cbv zeta.
  destruct (_ && _).
  { apply Forall_trace_bind; [by apply Forall_trace_log, HQ|].
    intros; constructor. }
  assert (T : truthy (sanitize_filename t) = true).
  { destruct (sanitize_filename_clean t) as (_ & _ & _ & _ & _ & NE).
    by destruct (sanitize_filename t). }
  rewrite T. cbn [negb].
  destruct (bool_decide _).
  { apply Forall_trace_bind; [by apply Forall_trace_log, HQ|].
    intros; constructor. }
  destruct (find_available_filename _ _ _) as [new_path|]; [|constructor].
  apply Forall_trace_try_except.
  - apply Forall_trace_bind; [by apply Forall_trace_call, HQ|]. intros fs'.
    apply Forall_trace_bind; [by apply Forall_trace_log, HQ|].
    intros; constructor.
  - intros e. apply Forall_trace_bind; [|intros; constructor].
    destruct (is_OSError e); by apply Forall_trace_log, HQ.
Qed.

Lemma process_events (Q : event -> Prop) st pdf_path :
  (forall ev, is_empty_title_log ev = false -> Q ev) ->
  Forall Q (trace (process st pdf_path)).
Proof.
  intros HQ. unfold process.
  apply Forall_trace_bind; [by apply Forall_trace_log, HQ|]. intros _.
  apply Forall_trace_bind.
  - apply extract_pdf_title_events; try (by apply HQ).
    + intros ev Hev. apply HQ. by destruct ev.
    + intros lv msg Hm. apply HQ. by destruct msg.
  - intros [t|]; [|constructor].
    destruct (truthy t); [by apply rename_to_title_events | constructor].
Qed.

Lemma for_each_events (Q : event -> Prop) pdf_files : forall st,
  (forall ev, is_empty_title_log ev = false -> Q ev) ->
  Forall Q (trace (for_each pdf_files st)).
Proof.
  induction pdf_files as [|p ps IH]; intros st HQ; cbn [for_each].
  - constructor.
  - apply Forall_trace_bind; [by apply process_events|].
    intros st1. by apply IH.
Qed.

(** X16.  The branch that skips a file because its sanitized title is
    empty is never taken: no run of the batch logs its warning. *)
Theorem empty_title_branch_is_dead (dir : option Folder) (listing : list str) :
  Forall (fun ev => is_empty_title_log ev = false)
         (trace (rename_pdfs_in_folder dir listing)).
Proof.
  unfold rename_pdfs_in_folder. destruct dir as [fs|].
  - cbv zeta. apply Forall_trace_bind; [by apply for_each_events|].
    intros st. apply Forall_trace_bind; [by apply Forall_trace_log|].
    intros; constructor.
  - apply Forall_trace_bind; [by apply Forall_trace_log|].
    intros; constructor.
Qed.

Lemma longer_is_different (s extra : str) : extra <> [] -> s <> s ++ extra.
Proof.
  intros Hne E. apply (f_equal length) in E. rewrite length_app in E.
  destruct extra; [done|]. cbn [length] in E. lia.
Qed.

(** X17.  The batch is not idempotent on files that carry a counter: a
    file named after its own sanitized title followed by [_k.pdf] is not
    recognised as already named, and is renamed again, to a name that is
    free, at every run. *)
Theorem counter_named_file_renamed_again
    (st : state) (f : File) (rd : PdfReader) (t0 : str) (k : N) :
  let c : str := sanitize_filename (strip t0) in
  let pdf_path : str := c ++ [0x5F] ++ str_of_int k ++ lit ".pdf" in
  folder st !! pdf_path = Some f ->
  open_error f = None -> reader f = inr rd -> rename_error f = None ->
  metadata_title rd t0 -> strip t0 <> [] ->
  exists new_path,
    new_path <> pdf_path /\ folder st !! new_path = None /\
    outcome (process st pdf_path)
    = inr (count_rename st
             (<[new_path := f]> (delete pdf_path (folder st)))).
Proof.
  intros c pdf_path Hf Ho Hr Hre (meta & Hm & Ht) Hs.
  assert (Ex : outcome (extract_pdf_title (folder st) pdf_path)
               = inr (Some (strip t0))).
  { rewrite outcome_extract_pdf_title, outcome_extract_body.
    unfold open_rb. rewrite Hf, Ho, Hr, Hm, outcome_title_from_metadata, Ht.
    by destruct (strip t0). }
  assert (Shape : pdf_path = (c ++ [0x5F] ++ str_of_int k) ++ 0x2E :: lit "pdf").
  { unfold pdf_path. by rewrite <- !app_assoc. }
  assert (Dot : 0x2E ∉ lit "pdf").
  { apply not_elem_of_cons. split; [discriminate|].
    apply not_elem_of_cons. split; [discriminate|].
    apply not_elem_of_cons. split; [discriminate|]. apply not_elem_of_nil. }
  assert (Cond : Nat.ltb 0 (length (c ++ [0x5F] ++ str_of_int k))
                 && Nat.ltb (length (c ++ [0x5F] ++ str_of_int k))
                      (length pdf_path - 1) = true).
  { apply andb_true_iff. rewrite !Nat.ltb_lt, Shape, !length_app.
    change (length (0x2E :: lit "pdf")) with 4%nat. cbn [length]. lia. }
  assert (St : stem pdf_path = c ++ [0x5F] ++ str_of_int k).
  { unfold stem. rewrite Shape at 1. rewrite (rfind_last _ _ _ Dot), Cond.
    rewrite Shape. apply take_app_length. }
  assert (Su : suffix pdf_path = lit ".pdf").
  { unfold suffix. rewrite Shape at 1. rewrite (rfind_last _ _ _ Dot), Cond.
    rewrite Shape. apply drop_app_length. }
  assert (Ne : c <> stem pdf_path).
  { rewrite St. by apply longer_is_different. }
  destruct (probe_enough_fuel (dom (folder st)) c (lit ".pdf")
              (size (dom (folder st))) (le_n _))
    as (new_path & Ef & kk & -> & Free & _).
  fold (find_available_filename (dom (folder st)) c (lit ".pdf")) in Ef.
  exists (candidate c (lit ".pdf") kk).
  assert (Hnew : folder st !! candidate c (lit ".pdf") kk = None)
    by by apply not_elem_of_dom.
  split; [intros E; rewrite E in Hnew; congruence|]. split; [done|].
  unfold process. rewrite !outcome_bind. cbn [outcome log snd].
  rewrite Ex. fold c.
  assert (T : truthy (strip t0) = true) by by destruct (strip t0).
  rewrite T. unfold rename_to_title. cbv zeta. fold c.
  assert (B1 : bool_decide (c = untitled)
               && bool_decide (stem pdf_path = untitled) = false).
  { apply andb_false_iff.
    destruct (decide (c = untitled)) as [E|E].
    - right. apply bool_decide_eq_false. rewrite <- E. congruence.
    - left. by apply bool_decide_eq_false. }
  rewrite B1.
  assert (T2 : truthy c = true).
  { destruct (sanitize_filename_clean (strip t0)) as (_ & _ & _ & _ & _ & NE).
    fold c in NE. by destruct c. }
  rewrite T2. cbn [negb].
  rewrite (bool_decide_eq_false_2 _ Ne), Su, Ef.
  rewrite outcome_try_except, outcome_bind, outcome_call.
  unfold rename. by rewrite Hf, Hre.
Qed.

End BatchExtras.

Lemma counter_named_file_renamed_again_witness :
  exists new_path,
    new_path <> lit "Foo_1.pdf" /\
    ({[ lit "Foo.pdf" := sample_file (Some (lit "Foo")) [];
        lit "Foo_1.pdf" := sample_file (Some (lit "Foo")) [] ]} : Folder)
      !! new_path = None /\
    outcome (@process ascii_digits_only
               {| folder :=
                    {[ lit "Foo.pdf" := sample_file (Some (lit "Foo")) [];
                       lit "Foo_1.pdf" := sample_file (Some (lit "Foo")) [] ]};
                  rename_count := 0; fail_count := 0 |}
               (lit "Foo_1.pdf"))
    = inr (count_rename
             {| folder :=
                  {[ lit "Foo.pdf" := sample_file (Some (lit "Foo")) [];
                     lit "Foo_1.pdf" := sample_file (Some (lit "Foo")) [] ]};
                rename_count := 0; fail_count := 0 |}
             (<[new_path := sample_file (Some (lit "Foo")) []]>
                (delete (lit "Foo_1.pdf")
                   {[ lit "Foo.pdf" := sample_file (Some (lit "Foo")) [];
                      lit "Foo_1.pdf" := sample_file (Some (lit "Foo")) [] ]}))).
Proof.
  destruct (@counter_named_file_renamed_again ascii_digits_only
    {| folder :=
         {[ lit "Foo.pdf" := sample_file (Some (lit "Foo")) [];
            lit "Foo_1.pdf" := sample_file (Some (lit "Foo")) [] ]};
       rename_count := 0; fail_count := 0 |}
    (sample_file (Some (lit "Foo")) [])
    {| metadata := inr (Some {[ lit "/Title" := lit "Foo" ]});
       pages := inr [] |}
    (lit "Foo") 1%N) as (new_path & W1 & W2 & W3).
  - vm_compute. reflexivity.
  - reflexivity.
  - reflexivity.
  - reflexivity.
  - eexists. split; [reflexivity|]. apply lookup_singleton_eq.
  - discriminate.
  - exists new_path. split; [exact W1|]. split; [exact W2 | exact W3].
Defined.

(** ** The batch loop: what one iteration does with a titled file *)

Section IterationExtras.
Context `{Unicode}.

Lemma outcome_extract_metadata_title (fs : Folder) (pdf_path : str)
    (f : File) (rd : PdfReader) (t0 : str) :
  fs !! pdf_path = Some f -> open_error f = None -> reader f = inr rd ->
  metadata_title rd t0 -> strip t0 <> [] ->
  outcome (extract_pdf_title fs pdf_path) = inr (Some (strip t0)).
Proof.
  intros Hf Ho Hr (meta & Hm & Ht) Hs.
  rewrite outcome_extract_pdf_title, outcome_extract_body.
  unfold open_rb. rewrite Hf, Ho, Hr, Hm, outcome_title_from_metadata, Ht.
  by destruct (strip t0).
Qed.

Lemma outcome_process_titled (st : state) (pdf_path t : str) :
  outcome (extract_pdf_title (folder st) pdf_path) = inr (Some t) ->
  t <> [] ->
  outcome (process st pdf_path) = outcome (rename_to_title st pdf_path t).
Proof.
  intros Ex Ht. unfold process. rewrite !outcome_bind.
  cbn [outcome log snd]. rewrite Ex. by destruct t.
Qed.

Lemma sanitize_filename_truthy t : truthy (sanitize_filename t) = true.
Proof.
  destruct (sanitize_filename_clean t) as (_ & _ & _ & _ & _ & NE).
  by destruct (sanitize_filename t).
Qed.

(** X18.  A readable file whose sanitized metadata title differs from its
    stem, and whose rename the system allows, is moved to the first free
    name made of the sanitized title and the file's own suffix; the count
    of renames goes up by one and nothing else changes. *)
Theorem process_renames_to_title
    (st : state) (pdf_path : str) (f : File) (rd : PdfReader) (t0 : str) :
  folder st !! pdf_path = Some f ->
  open_error f = None -> reader f = inr rd -> rename_error f = None ->
  metadata_title rd t0 -> strip t0 <> [] ->
  sanitize_filename (strip t0) <> stem pdf_path ->
  exists new_path,
    first_free (dom (folder st)) (sanitize_filename (strip t0))
      (suffix pdf_path) new_path /\
    outcome (process st pdf_path)
    = inr {| folder := <[new_path := f]> (delete pdf_path (folder st));
             rename_count := rename_count st + 1;
             fail_count := fail_count st |}.
Proof.
  intros Hf Ho Hr Hre Hmt Hs Ne.
  rewrite (outcome_process_titled st pdf_path (strip t0)
             (outcome_extract_metadata_title _ _ f rd t0 Hf Ho Hr Hmt Hs) Hs).
  destruct (probe_enough_fuel (dom (folder st)) (sanitize_filename (strip t0))
              (suffix pdf_path) (size (dom (folder st))) (le_n _))
    as (new_path & Ef & Free).
  fold (find_available_filename (dom (folder st))
          (sanitize_filename (strip t0)) (suffix pdf_path)) in Ef.
  exists new_path. split; [done|].
  unfold rename_to_title. cbv zeta.
  assert (B1 : bool_decide (sanitize_filename (strip t0) = untitled)
               && bool_decide (stem pdf_path = untitled) = false).
  { apply andb_false_iff.
    destruct (decide (sanitize_filename (strip t0) = untitled)) as [E|E].
    - right. apply bool_decide_eq_false. congruence.
    - left. by apply bool_decide_eq_false. }
  rewrite B1, sanitize_filename_truthy. cbn [negb].
  rewrite (bool_decide_eq_false_2 _ Ne), Ef.
  rewrite outcome_try_except, outcome_bind, outcome_call.
  unfold rename. by rewrite Hf, Hre.
Qed.

(** X19.  When the system refuses the rename, the iteration catches the
    error, leaves the folder as it is and counts one failure. *)
Theorem process_counts_failed_rename
    (st : state) (pdf_path : str) (f : File) (rd : PdfReader) (t0 : str)
    (e : exn) :
  folder st !! pdf_path = Some f ->
  open_error f = None -> reader f = inr rd -> rename_error f = Some e ->
  metadata_title rd t0 -> strip t0 <> [] ->
  sanitize_filename (strip t0) <> stem pdf_path ->
  outcome (process st pdf_path)
  = inr {| folder := folder st;
           rename_count := rename_count st;
           fail_count := fail_count st + 1 |}.
Proof.
  intros Hf Ho Hr Hre Hmt Hs Ne.
  rewrite (outcome_process_titled st pdf_path (strip t0)
             (outcome_extract_metadata_title _ _ f rd t0 Hf Ho Hr Hmt Hs) Hs).
  destruct (probe_enough_fuel (dom (folder st)) (sanitize_filename (strip t0))
              (suffix pdf_path) (size (dom (folder st))) (le_n _))
    as (new_path & Ef & Free).
  fold (find_available_filename (dom (folder st))
          (sanitize_filename (strip t0)) (suffix pdf_path)) in Ef.
  unfold rename_to_title. cbv zeta.
  assert (B1 : bool_decide (sanitize_filename (strip t0) = untitled)
               && bool_decide (stem pdf_path = untitled) = false).
  { apply andb_false_iff.
    destruct (decide (sanitize_filename (strip t0) = untitled)) as [E|E].
    - right. apply bool_decide_eq_false. congruence.
    - left. by apply bool_decide_eq_false. }
  rewrite B1, sanitize_filename_truthy. cbn [negb].
  rewrite (bool_decide_eq_false_2 _ Ne), Ef.
  rewrite outcome_try_except, outcome_bind, outcome_call.
  unfold rename. rewrite Hf, Hre, outcome_bind. by destruct (is_OSError e).
Qed.

(** X20.  A readable file whose sanitized metadata title is already its
    stem is left alone: the iteration returns the state it was given and
    asks for no rename. *)
Theorem process_skips_named_file
    (st : state) (pdf_path : str) (f : File) (rd : PdfReader) (t0 : str) :
  folder st !! pdf_path = Some f ->
  open_error f = None -> reader f = inr rd ->
  metadata_title rd t0 -> strip t0 <> [] ->
  sanitize_filename (strip t0) = stem pdf_path ->
  outcome (process st pdf_path) = inr st /\
  Forall (fun ev => forall a b, ev <> Call_rename a b)
         (trace (process st pdf_path)).
Proof.
  intros Hf Ho Hr Hmt Hs E.
  pose proof (outcome_extract_metadata_title _ _ f rd t0 Hf Ho Hr Hmt Hs)
    as Ex.
  assert (R : rename_to_title st pdf_path (strip t0) =
              ([Log WARNING (Msg_already_untitled pdf_path)], inr st) \/
              rename_to_title st pdf_path (strip t0) =
              ([Log INFO (Msg_no_change pdf_path)], inr st)).
  { unfold rename_to_title. cbv zeta.
    destruct (_ && _); [by left|].
    rewrite sanitize_filename_truthy. cbn [negb].
    rewrite (bool_decide_eq_true_2 _ E). by right. }
  split.
  - rewrite (outcome_process_titled st pdf_path (strip t0) Ex Hs).
    by destruct R as [-> | ->].
  - unfold process. rewrite trace_bind. cbn [outcome log snd].
    rewrite trace_bind, Ex.
    assert (T : truthy (strip t0) = true) by by destruct (strip t0).
    rewrite T. apply Forall_app. split; [by repeat constructor|].
    apply Forall_app. split.
    + apply extract_pdf_title_events; try done. by intros [].
    + destruct R as [-> | ->]; by repeat constructor.
Qed.

End IterationExtras.

Lemma process_renames_to_title_witness :
  exists new_path,
    first_free (dom ({[ lit "a.pdf" := sample_file (Some (lit "Foo")) [] ]}
                     : Folder))
      (sanitize_filename (strip (lit "Foo"))) (suffix (lit "a.pdf")) new_path /\
    outcome (@process ascii_digits_only
               {| folder := {[ lit "a.pdf" := sample_file (Some (lit "Foo")) [] ]};
                  rename_count := 0; fail_count := 0 |} (lit "a.pdf"))
    = inr {| folder :=
               <[new_path := sample_file (Some (lit "Foo")) []]>
                 (delete (lit "a.pdf")
                    {[ lit "a.pdf" := sample_file (Some (lit "Foo")) [] ]});
             rename_count := 0 + 1; fail_count := 0 |}.
Proof.
  destruct (@process_renames_to_title ascii_digits_only
    {| folder := {[ lit "a.pdf" := sample_file (Some (lit "Foo")) [] ]};
       rename_count := 0; fail_count := 0 |}
    (lit "a.pdf") (sample_file (Some (lit "Foo")) [])
    {| metadata := inr (Some {[ lit "/Title" := lit "Foo" ]});
       pages := inr [] |}
    (lit "Foo")) as (new_path & W1 & W2).
  - apply lookup_singleton_eq.
  - reflexivity.
  - reflexivity.
  - reflexivity.
  - eexists. split; [reflexivity|]. apply lookup_singleton_eq.
  - discriminate.
  - discriminate.
  - exists new_path. split; [exact W1 | exact W2].
Defined.

Lemma process_counts_failed_rename_witness :
  outcome (@process ascii_digits_only
             {| folder :=
                  {[ lit "a.pdf" :=
                       {| open_error := None;
                          reader :=
                            inr {| metadata :=
                                     inr (Some {[ lit "/Title" := lit "Foo" ]});
                                   pages := inr [] |};
                          rename_error := Some OSError |} ]};
                rename_count := 0; fail_count := 0 |} (lit "a.pdf"))
  = inr {| folder :=
             {[ lit "a.pdf" :=
                  {| open_error := None;
                     reader :=
                       inr {| metadata :=
                                inr (Some {[ lit "/Title" := lit "Foo" ]});
                              pages := inr [] |};
                     rename_error := Some OSError |} ]};
           rename_count := 0; fail_count := 0 + 1 |}.
Proof.
  unshelve epose proof (@process_counts_failed_rename ascii_digits_only
    {| folder :=
         {[ lit "a.pdf" :=
              {| open_error := None;
                 reader :=
                   inr {| metadata :=
                            inr (Some {[ lit "/Title" := lit "Foo" ]});
                          pages := inr [] |};
                 rename_error := Some OSError |} ]};
       rename_count := 0; fail_count := 0 |}
    (lit "a.pdf")
    {| open_error := None;
       reader :=
         inr {| metadata := inr (Some {[ lit "/Title" := lit "Foo" ]});
                pages := inr [] |};
       rename_error := Some OSError |}
    {| metadata := inr (Some {[ lit "/Title" := lit "Foo" ]});
       pages := inr [] |}
    (lit "Foo") OSError _ _ _ _ _ _ _) as W.
  - apply lookup_singleton_eq.
  - reflexivity.
  - reflexivity.
  - reflexivity.
  - eexists. split; [reflexivity|]. apply lookup_singleton_eq.
  - discriminate.
  - discriminate.
  - exact W.
Defined.

Lemma process_skips_named_file_witness :
  outcome (@process ascii_digits_only
             {| folder := {[ lit "Foo.pdf" := sample_file (Some (lit "Foo")) [] ]};
                rename_count := 0; fail_count := 0 |} (lit "Foo.pdf"))
  = inr {| folder := {[ lit "Foo.pdf" := sample_file (Some (lit "Foo")) [] ]};
           rename_count := 0; fail_count := 0 |}.
Proof.
  unshelve epose proof (proj1 (@process_skips_named_file ascii_digits_only
    {| folder := {[ lit "Foo.pdf" := sample_file (Some (lit "Foo")) [] ]};
       rename_count := 0; fail_count := 0 |}
    (lit "Foo.pdf") (sample_file (Some (lit "Foo")) [])
    {| metadata := inr (Some {[ lit "/Title" := lit "Foo" ]});
       pages := inr [] |}
    (lit "Foo") _ _ _ _ _ _)) as W.
  - apply lookup_singleton_eq.
  - reflexivity.
  - reflexivity.
  - eexists. split; [reflexivity|]. apply lookup_singleton_eq.
  - discriminate.
  - reflexivity.
  - exact W.
Defined.
